(** * INPI API client: financial data extractor and SIREN validator

    A shallow embedding of [src/inpi/financial_extractor.py] and of
    [SirenSiretValidator.validate_siren] from [src/utils/validators.py].

    The Python code works on the output of a JSON parser and leans on the
    dynamic behaviour of the language: subscripting, iteration, the [get]
    method and [int] all raise exceptions of different classes on values of the
    wrong type, and the extractor decides what to return by the class of the
    exception.  The embedding therefore keeps

    - the untyped JSON value ([Py.value]),
    - the exception classes ([Py.exn]) and an error monad ([Py.res]) in
      which [try ... except (E1, E2): ...] is [Py.try_except],
    - the built-in operations the two source files call.

    A Python [str] is a [string]: one [ascii] stands for one code point in
    U+0000..U+00FF, so [len], iteration and indexing count characters as
    Python does; code points above U+00FF are outside the model. *)

From Stdlib Require Import ZArith List String Ascii Bool Lia Permutation SpecFloat.
Import ListNotations.
Local Open Scope string_scope.
Local Open Scope Z_scope.
Set Warnings "-register-all".

(* ===================================================================== *)
(** ** The Python run time used by the two source files                  *)
(* ===================================================================== *)

Module Py.

(** Exception classes that the modelled code raises or names in an
    [except] clause. None of them is a subclass of another one. *)
Inductive exn : Type :=
| StopIteration
| ValueError
| KeyError
| TypeError
| IndexError
| AttributeError
| OverflowError
| InvalidSirenError.

Definition exn_eq_dec (a b : exn) : {a = b} + {a <> b}.
Proof. decide equality. Defined.

(** The result of running a piece of Python: a value, or a raised
    exception that is travelling up the call stack. *)
Inductive res (A : Type) : Type :=
| Ok (a : A)
| Raise (e : exn).
Arguments Ok {A} a.
Arguments Raise {A} e.

Definition bind {A B : Type} (c : res A) (k : A -> res B) : res B :=
  match c with
  | Ok a => k a
  | Raise e => Raise e
  end.

Definition caught (handled : list exn) (e : exn) : bool :=
  if in_dec exn_eq_dec e handled then true else false.

(** [try: body except (handled): handler] *)
Definition try_except {A : Type} (body : res A) (handled : list exn)
    (handler : res A) : res A :=
  match body with
  | Ok a => Ok a
  | Raise e => if caught handled e then handler else Raise e
  end.

(** What [json.loads] produces. An object is kept as the list of its
    members in insertion order; Python dicts have distinct keys, and
    [dict_lookup] reads the first binding of a key. *)
Inductive value : Type :=
| VNone
| VBool (b : bool)
| VInt (z : Z)
| VFloat (f : spec_float)
| VStr (s : string)
| VList (l : list value)
| VDict (d : list (string * value)).

Fixpoint dict_lookup {V : Type} (k : string) (d : list (string * V)) : option V :=
  match d with
  | [] => None
  | (k', v) :: d' => if String.eqb k k' then Some v else dict_lookup k d'
  end.

(** Index of a sequence by a Python integer: negative indices count from
    the end. *)
Definition seq_index {A : Type} (l : list A) (i : Z) : option A :=
  let n := Z.of_nat (List.length l) in
  let j := if i <? 0 then i + n else i in
  if (j <? 0) || (n <=? j) then None else nth_error l (Z.to_nat j).

Definition chars (s : string) : list value :=
  map (fun c => VStr (String c EmptyString)) (list_ascii_of_string s).

(** [o[k]] for a [str] key. *)
Definition getitem_str (o : value) (k : string) : res value :=
  match o with
  | VDict d =>
      match dict_lookup k d with
      | Some v => Ok v
      | None => Raise KeyError
      end
  | _ => Raise TypeError
  end.

(** [o[i]] for an [int] key. The keys of a JSON object are strings, so
    an integer key is never found in one. *)
Definition getitem_int (o : value) (i : Z) : res value :=
  match o with
  | VList l =>
      match seq_index l i with
      | Some v => Ok v
      | None => Raise IndexError
      end
  | VStr s =>
      match seq_index (chars s) i with
      | Some v => Ok v
      | None => Raise IndexError
      end
  | VDict _ => Raise KeyError
  | _ => Raise TypeError
  end.

(** [o.get(k, default)]: only dicts have the method. *)
Definition get (o : value) (k : string) (default : value) : res value :=
  match o with
  | VDict d =>
      match dict_lookup k d with
      | Some v => Ok v
      | None => Ok default
      end
  | _ => Raise AttributeError
  end.

(** The items a [for] loop over [o] visits: a list gives its elements, a
    string its characters, a dict its keys. *)
Definition iter (o : value) : res (list value) :=
  match o with
  | VList l => Ok l
  | VStr s => Ok (chars s)
  | VDict d => Ok (map (fun kv => VStr (fst kv)) d)
  | _ => Raise TypeError
  end.

(** [v == s] for a string [s]; comparing never raises. *)
Definition eq_str (v : value) (s : string) : bool :=
  match v with
  | VStr t => String.eqb t s
  | _ => false
  end.

(** *** [int(...)] *)

(** White space that [int] skips around the digits, in U+0000..U+00FF. *)
Definition is_space (c : ascii) : bool :=
  let n := Z.of_N (N_of_ascii c) in
  ((9 <=? n) && (n <=? 13)) || (n =? 32) || (n =? 133) || (n =? 160).

Definition digit_val (c : ascii) : option Z :=
  let n := Z.of_N (N_of_ascii c) in
  if (48 <=? n) && (n <=? 57) then Some (n - 48) else None.

Fixpoint drop_spaces (l : list ascii) : list ascii :=
  match l with
  | [] => []
  | c :: t => if is_space c then drop_spaces t else l
  end.

(** Digits after the first one; a single underscore may sit between two
    digits. Returns the number read, how many digits it had, and the
    unread rest. *)
Fixpoint digits_tail (l : list ascii) (acc cnt : Z) : Z * Z * list ascii :=
  match l with
  | [] => (acc, cnt, [])
  | c :: t =>
      match digit_val c with
      | Some d => digits_tail t (10 * acc + d) (cnt + 1)
      | None =>
          if Ascii.eqb c "_"
          then match t with
               | c' :: t' =>
                   match digit_val c' with
                   | Some d => digits_tail t' (10 * acc + d) (cnt + 1)
                   | None => (acc, cnt, l)
                   end
               | [] => (acc, cnt, l)
               end
          else (acc, cnt, l)
      end
  end.

(** [sys.get_int_max_str_digits()], default of CPython 3.11 and later. *)
Definition int_max_str_digits : Z := 4300.

Definition int_of_str (s : string) : res Z :=
  let l := drop_spaces (list_ascii_of_string s) in
  let '(neg, l1) :=
    match l with
    | c :: t =>
        if Ascii.eqb c "+" then (false, t)
        else if Ascii.eqb c "-" then (true, t)
        else (false, l)
    | [] => (false, l)
    end in
  match l1 with
  | [] => Raise ValueError
  | c :: t =>
      match digit_val c with
      | None => Raise ValueError
      | Some d =>
          let '(v, cnt, rest) := digits_tail t d 1 in
          match drop_spaces rest with
          | [] =>
              if cnt <=? int_max_str_digits
              then Ok (if neg then - v else v)
              else Raise ValueError
          | _ :: _ => Raise ValueError
          end
      end
  end.

(** [int(f)] truncates a finite float towards zero. *)
Definition int_of_float (f : spec_float) : res Z :=
  match f with
  | S754_zero _ => Ok 0
  | S754_infinity _ => Raise OverflowError
  | S754_nan => Raise ValueError
  | S754_finite s m e =>
      let mag := Z.shiftl (Z.pos m) e in
      Ok (if s then - mag else mag)
  end.

Definition int (v : value) : res Z :=
  match v with
  | VInt z => Ok z
  | VBool b => Ok (if b then 1 else 0)
  | VFloat f => int_of_float f
  | VStr s => int_of_str s
  | VNone | VList _ | VDict _ => Raise TypeError
  end.

(** *** String methods used by the validator *)

(** [s.replace(c, "")] for a one-character [c]. *)
Fixpoint remove_char (c : ascii) (s : string) : string :=
  match s with
  | EmptyString => EmptyString
  | String a t => if Ascii.eqb a c then remove_char c t else String a (remove_char c t)
  end.

(** Characters of U+0000..U+00FF with the Unicode digit property: the
    ASCII digits and the superscripts U+00B2, U+00B3, U+00B9. *)
Definition is_digit_char (c : ascii) : bool :=
  let n := Z.of_N (N_of_ascii c) in
  ((48 <=? n) && (n <=? 57)) || (n =? 178) || (n =? 179) || (n =? 185).

Definition is_ascii_digit (c : ascii) : bool :=
  let n := Z.of_N (N_of_ascii c) in
  (48 <=? n) && (n <=? 57).

(** [s.isdigit()]: non-empty and every character is a digit. *)
Definition isdigit (s : string) : bool :=
  match list_ascii_of_string s with
  | [] => false
  | l => forallb is_digit_char l
  end.

End Py.

Declare Scope py_scope.
Delimit Scope py_scope with py.
Notation "x <- c ;; k" := (Py.bind c (fun x => k))
  (at level 61, c at next level, right associativity) : py_scope.
Local Open Scope py_scope.

(* ===================================================================== *)
(** ** src/inpi/financial_extractor.py                                   *)
(* ===================================================================== *)

(** [class FinancialMetricType(Enum)] *)
Module FinancialMetricType.
Inductive t : Type :=
| CAPITAUX_PROPRES
| BENEFICE_PERTE
| RESULTAT_EXERCICE
| CHIFFRE_AFFAIRES
| EFFECTIF.
End FinancialMetricType.

(** [class BilanType(Enum)] *)
Module BilanType.
Inductive t : Type :=
| TBC   (* "C"  comptes annuels complets *)
| TBS   (* "S"  comptes annuels simplifies *)
| TBK   (* "K"  comptes consolides *)
| TBB   (* "B"  comptes annuels de banques *)
| TBAC  (* "AC" agricole complets *)
| TBAS. (* "AS" agricole simplifies *)

Definition eq_dec (a b : t) : {a = b} + {a <> b}.
Proof. decide equality. Defined.

Definition eqb (a b : t) : bool := if eq_dec a b then true else false.
End BilanType.

(** A code mapping [{"field": f, "code": c}]. *)
Record mapping : Type := Mapping { field : string; code : string }.

(** A table value of [BENEFICE_PERTE]: one mapping, or a list of them
    ([isinstance(mapping, list)]). *)
Inductive entry : Type :=
| Single (m : mapping)
| Chain (l : list mapping).

(** A dict literal keyed by [BilanType], members in source order. *)
Fixpoint table_lookup {V : Type} (k : BilanType.t) (d : list (BilanType.t * V)) : option V :=
  match d with
  | [] => None
  | (k', v) :: d' => if BilanType.eqb k k' then Some v else table_lookup k d'
  end.

(** [class FinancialCodeMapping] *)
Module FinancialCodeMapping.
Import BilanType.

Definition CHIFFRE_AFFAIRES : list (BilanType.t * mapping) :=
  [ (TBC, Mapping "m3" "FJ");
    (TBK, Mapping "m3" "FJ") ].

Definition CHIFFRE_AFFAIRES_N_1 : list (BilanType.t * mapping) :=
  [ (TBC, Mapping "m4" "FJ");
    (TBK, Mapping "m4" "FJ") ].

Definition CHIFFRE_AFFAIRES_TBS : list (string * mapping) :=
  [ ("ventes_marchandises_export", Mapping "m1" "209");
    ("production_biens_export", Mapping "m1" "215");
    ("production_services_export", Mapping "m1" "217");
    ("ventes_marchandises_france", Mapping "m1" "210");
    ("production_biens_france", Mapping "m1" "214");
    ("production_services_france", Mapping "m1" "218") ].

Definition CHIFFRE_AFFAIRES_N_1_TBS : list (string * mapping) :=
  [ ("ventes_marchandises", Mapping "m2" "210");
    ("production_biens", Mapping "m2" "214");
    ("production_services", Mapping "m2" "218") ].

Definition CAPITAUX_PROPRES : list (BilanType.t * mapping) :=
  [ (TBC, Mapping "m1" "DL");
    (TBS, Mapping "m3" "142");
    (TBK, Mapping "m1" "DL") ].

Definition CAPITAUX_PROPRES_N_1 : list (BilanType.t * mapping) :=
  [ (TBC, Mapping "m2" "DL");
    (TBS, Mapping "m4" "142");
    (TBK, Mapping "m2" "DL") ].

Definition CAPITAUX_PROPRES_TBB : list (string * mapping) :=
  [ ("capital_souscrit", Mapping "m1" "P3");
    ("primes_emission", Mapping "m1" "P4");
    ("reserves", Mapping "m1" "P5");
    ("ecarts_reevaluation", Mapping "m1" "P6");
    ("report_nouveau", Mapping "m1" "P7");
    ("resultat_exercice", Mapping "m1" "P8") ].

Definition CAPITAUX_PROPRES_N_1_TBB : list (string * mapping) :=
  [ ("capital_souscrit", Mapping "m2" "P3");
    ("primes_emission", Mapping "m2" "P4");
    ("reserves", Mapping "m2" "P5");
    ("ecarts_reevaluation", Mapping "m2" "P6");
    ("report_nouveau", Mapping "m2" "P7");
    ("resultat_exercice", Mapping "m2" "P8") ].

Definition BENEFICE_PERTE : list (BilanType.t * entry) :=
  [ (TBK, Single (Mapping "m1" "R6"));
    (TBS, Chain [ Mapping "m1" "310"; Mapping "m3" "136" ]);
    (TBC, Chain [ Mapping "m1" "HN"; Mapping "m1" "DI" ]) ].

Definition BENEFICE_PERTE_N_1 : list (BilanType.t * entry) :=
  [ (TBK, Single (Mapping "m2" "R6"));
    (TBS, Chain [ Mapping "m2" "310"; Mapping "m4" "136" ]);
    (TBC, Chain [ Mapping "m2" "HN"; Mapping "m2" "DI" ]) ].

Definition RESULTAT_EXERCICE_TBB : list mapping :=
  [ Mapping "m1" "R3"; Mapping "m1" "P8" ].

Definition RESULTAT_EXERCICE_N_1_TBB : list mapping :=
  [ Mapping "m2" "R3"; Mapping "m2" "P8" ].

Definition EFFECTIF : list (BilanType.t * mapping) :=
  [ (TBS, Mapping "m1" "376");
    (TBC, Mapping "m1" "YP") ].

Definition EFFECTIF_N_1 : list (BilanType.t * mapping) :=
  [ (TBS, Mapping "m2" "376");
    (TBC, Mapping "m2" "YP") ].

End FinancialCodeMapping.

(** [class FinancialDataExtractor] *)
Module FinancialDataExtractor.
Import Py.

(** The inner loop of the generator expression, over the liasses of one
    page: [Ok (Some v)] when the generator yields [v], [Ok None] when the
    page is used up without a yield. *)
Fixpoint scan_liasses (liasses : list value) (field code : string) : res (option Z) :=
  match liasses with
  | [] => Ok None
  | liasse :: rest =>
      c <- get liasse "code" VNone ;;
      if eq_str c code
      then cell <- getitem_str liasse field ;;
           v <- int cell ;;
           Ok (Some v)
      else scan_liasses rest field code
  end.

(** The outer loop, over the pages. *)
Fixpoint scan_pages (pages : list value) (field code : string) : res (option Z) :=
  match pages with
  | [] => Ok None
  | page :: rest =>
      l <- get page "liasses" (VList []) ;;
      liasses <- iter l ;;
      r <- scan_liasses liasses field code ;;
      match r with
      | Some v => Ok (Some v)
      | None => scan_pages rest field code
      end
  end.

(** [next(int(liasse[field]) for page in pages
          for liasse in page.get("liasses", []) if liasse.get("code") == code)] *)
Definition first_cell (pages : value) (field code : string) : res Z :=
  ps <- iter pages ;;
  r <- scan_pages ps field code ;;
  match r with
  | Some v => Ok v
  | None => Raise StopIteration
  end.

(** The result is [Ok (Some v)] for a returned integer, [Ok None] for a
    returned [None], [Raise e] for an exception that leaves the call. *)
Definition extract_from_pages (pages : value) (field code : string) : res (option Z) :=
  try_except
    (value <- first_cell pages field code ;; Ok (Some value))
    [StopIteration; ValueError; KeyError; TypeError]
    (Ok None).

Fixpoint extract_with_fallback (pages : value) (mappings : list mapping) : res (option Z) :=
  match mappings with
  | [] => Ok None
  | mapping :: rest =>
      result <- extract_from_pages pages (field mapping) (code mapping) ;;
      match result with
      | Some v => Ok (Some v)
      | None => extract_with_fallback pages rest
      end
  end.

(** The [for] loop of [extract_sum_from_components], [total] threaded
    through. *)
Fixpoint sum_loop (pages : value) (mappings : list mapping) (total : Z) : res Z :=
  match mappings with
  | [] => Ok total
  | mapping :: rest =>
      value <- extract_from_pages pages (field mapping) (code mapping) ;;
      sum_loop pages rest
        (match value with
         | Some v => total + v
         | None => total
         end)
  end.

Definition extract_sum_from_components (pages : value)
    (components : list (string * mapping)) : res (option Z) :=
  total <- sum_loop pages (map snd components) 0 ;;
  Ok (if total >? 0 then Some total else None).

(** [bilan_data["bilansSaisis"][position]["bilanSaisi"]["bilan"]["detail"]["pages"]] *)
Definition navigate (bilan_data : value) (position : Z) : res value :=
  a <- getitem_str bilan_data "bilansSaisis" ;;
  b <- getitem_int a position ;;
  c <- getitem_str b "bilanSaisi" ;;
  d <- getitem_str c "bilan" ;;
  e <- getitem_str d "detail" ;;
  getitem_str e "pages".

(** The [except] clause shared by the getters; each falls through to
    [return None]. *)
Definition getter_handled : list exn := [KeyError; IndexError; TypeError].

Definition get_capitaux_propres (bilan_data : value) (position : Z)
    (bilan_type : BilanType.t) (n_minus_1 : bool) : res (option Z) :=
  try_except
    (pages <- navigate bilan_data position ;;
     if BilanType.eqb bilan_type BilanType.TBB
     then extract_sum_from_components pages
            (if n_minus_1
             then FinancialCodeMapping.CAPITAUX_PROPRES_N_1_TBB
             else FinancialCodeMapping.CAPITAUX_PROPRES_TBB)
     else
       match table_lookup bilan_type
               (if n_minus_1
                then FinancialCodeMapping.CAPITAUX_PROPRES_N_1
                else FinancialCodeMapping.CAPITAUX_PROPRES) with
       | Some mapping => extract_from_pages pages (field mapping) (code mapping)
       | None => Ok None
       end)
    getter_handled
    (Ok None).

Definition get_benefice_perte (bilan_data : value) (position : Z)
    (bilan_type : BilanType.t) (n_minus_1 : bool) : res (option Z) :=
  try_except
    (pages <- navigate bilan_data position ;;
     match table_lookup bilan_type
             (if n_minus_1
              then FinancialCodeMapping.BENEFICE_PERTE_N_1
              else FinancialCodeMapping.BENEFICE_PERTE) with
     | Some (Chain mappings) => extract_with_fallback pages mappings
     | Some (Single mapping) => extract_from_pages pages (field mapping) (code mapping)
     | None => Ok None
     end)
    getter_handled
    (Ok None).

Definition get_resultat_exercice_tbb (bilan_data : value) (position : Z)
    (n_minus_1 : bool) : res (option Z) :=
  try_except
    (pages <- navigate bilan_data position ;;
     extract_with_fallback pages
       (if n_minus_1
        then FinancialCodeMapping.RESULTAT_EXERCICE_N_1_TBB
        else FinancialCodeMapping.RESULTAT_EXERCICE_TBB))
    getter_handled
    (Ok None).

Definition get_chiffre_affaires (bilan_data : value) (position : Z)
    (bilan_type : BilanType.t) (n_minus_1 : bool) : res (option Z) :=
  try_except
    (pages <- navigate bilan_data position ;;
     if BilanType.eqb bilan_type BilanType.TBS
     then extract_sum_from_components pages
            (if n_minus_1
             then FinancialCodeMapping.CHIFFRE_AFFAIRES_N_1_TBS
             else FinancialCodeMapping.CHIFFRE_AFFAIRES_TBS)
     else
       match table_lookup bilan_type
               (if n_minus_1
                then FinancialCodeMapping.CHIFFRE_AFFAIRES_N_1
                else FinancialCodeMapping.CHIFFRE_AFFAIRES) with
       | Some mapping => extract_from_pages pages (field mapping) (code mapping)
       | None => Ok None
       end)
    getter_handled
    (Ok None).

Definition get_effectif (bilan_data : value) (position : Z)
    (bilan_type : BilanType.t) (n_minus_1 : bool) : res (option Z) :=
  try_except
    (pages <- navigate bilan_data position ;;
     match table_lookup bilan_type
             (if n_minus_1
              then FinancialCodeMapping.EFFECTIF_N_1
              else FinancialCodeMapping.EFFECTIF) with
     | Some mapping => extract_from_pages pages (field mapping) (code mapping)
     | None => Ok None
     end)
    getter_handled
    (Ok None).

End FinancialDataExtractor.

(* ===================================================================== *)
(** ** src/utils/validators.py                                           *)
(* ===================================================================== *)

Module SirenSiretValidator.
Import Py.

(** [validate_siren(siren: Optional[str], allow_none=False)]. The
    argument is [None] or a [str], as annotated, so the [str(siren)]
    conversion of other types is not reached. *)
Definition validate_siren (siren : option string) (allow_none : bool) : res (option string) :=
  match siren with
  | None => if allow_none then Ok None else Raise InvalidSirenError
  | Some siren =>
      let siren := remove_char "." (remove_char "-" (remove_char " " siren)) in
      if negb (Nat.eqb (String.length siren) 9)
      then Raise InvalidSirenError
      else if negb (isdigit siren)
      then Raise InvalidSirenError
      else Ok (Some siren)
  end.

End SirenSiretValidator.

(* ===================================================================== *)
(** ** Vocabulary of the statements                                      *)
(* ===================================================================== *)

Module Shape.
Import Py.

Definition is_dict (v : value) : bool :=
  match v with
  | VDict _ => true
  | _ => false
  end.

(** The liasse is an object whose ["code"] member is the string [code]. *)
Definition liasse_has_code (code : string) (liasse : value) : bool :=
  match liasse with
  | VDict d =>
      match dict_lookup "code" d with
      | Some c => eq_str c code
      | None => false
      end
  | _ => false
  end.

(** The liasses of a page whose ["liasses"] member is an array. *)
Definition page_liasses (page : value) : list value :=
  match page with
  | VDict d =>
      match dict_lookup "liasses" d with
      | Some (VList ls) => ls
      | _ => []
      end
  | _ => []
  end.

(** The page is an object, and its ["liasses"] member, when there is
    one, is an array of objects. *)
Definition page_wellformed (page : value) : bool :=
  match page with
  | VDict d =>
      match dict_lookup "liasses" d with
      | None => true
      | Some (VList ls) => forallb is_dict ls
      | Some _ => false
      end
  | _ => false
  end.

(** The page contains a liasse with the given code. *)
Definition page_has_code (code : string) (page : value) : bool :=
  existsb (liasse_has_code code) (page_liasses page).

(** A statement wrapping a pages value, and a document of statements, as
    the registry sends them (other members left out). *)
Definition statement (pages : value) : value :=
  VDict [("bilanSaisi",
          VDict [("bilan",
                  VDict [("detail",
                          VDict [("pages", pages)])])])].

Definition document (statements : list value) : value :=
  VDict [("bilansSaisis", VList statements)].

(** A liasse [{code, m1, m2}] with string cells. *)
Definition liasse2 (code m1 m2 : string) : value :=
  VDict [("code", VStr code); ("m1", VStr m1); ("m2", VStr m2)].

Definition page (liasses : list value) : value :=
  VDict [("liasses", VList liasses)].

End Shape.

Module Metric.
Import Py FinancialDataExtractor.

(** The five getters behind one name, for statements about all of them.
    [get_resultat_exercice_tbb] takes no bilan type. *)
Definition get_metric (metric : FinancialMetricType.t) (bilan_data : value)
    (position : Z) (bilan_type : BilanType.t) (n_minus_1 : bool) : res (option Z) :=
  match metric with
  | FinancialMetricType.CAPITAUX_PROPRES =>
      get_capitaux_propres bilan_data position bilan_type n_minus_1
  | FinancialMetricType.BENEFICE_PERTE =>
      get_benefice_perte bilan_data position bilan_type n_minus_1
  | FinancialMetricType.RESULTAT_EXERCICE =>
      get_resultat_exercice_tbb bilan_data position n_minus_1
  | FinancialMetricType.CHIFFRE_AFFAIRES =>
      get_chiffre_affaires bilan_data position bilan_type n_minus_1
  | FinancialMetricType.EFFECTIF =>
      get_effectif bilan_data position bilan_type n_minus_1
  end.

Definition in_table {V : Type} (bilan_type : BilanType.t)
    (table : list (BilanType.t * V)) : bool :=
  match table_lookup bilan_type table with
  | Some _ => true
  | None => false
  end.

(** The getter of [metric] has something to look up for [bilan_type]:
    a member of its table, or the component sum of its special type. *)
Definition has_entry (metric : FinancialMetricType.t) (bilan_type : BilanType.t)
    (n_minus_1 : bool) : bool :=
  match metric with
  | FinancialMetricType.CAPITAUX_PROPRES =>
      BilanType.eqb bilan_type BilanType.TBB
      || in_table bilan_type
           (if n_minus_1
            then FinancialCodeMapping.CAPITAUX_PROPRES_N_1
            else FinancialCodeMapping.CAPITAUX_PROPRES)
  | FinancialMetricType.BENEFICE_PERTE =>
      in_table bilan_type
        (if n_minus_1
         then FinancialCodeMapping.BENEFICE_PERTE_N_1
         else FinancialCodeMapping.BENEFICE_PERTE)
  | FinancialMetricType.RESULTAT_EXERCICE => true
  | FinancialMetricType.CHIFFRE_AFFAIRES =>
      BilanType.eqb bilan_type BilanType.TBS
      || in_table bilan_type
           (if n_minus_1
            then FinancialCodeMapping.CHIFFRE_AFFAIRES_N_1
            else FinancialCodeMapping.CHIFFRE_AFFAIRES)
  | FinancialMetricType.EFFECTIF =>
      in_table bilan_type
        (if n_minus_1
         then FinancialCodeMapping.EFFECTIF_N_1
         else FinancialCodeMapping.EFFECTIF)
  end.

(** What a component adds to the total: its value, zero when absent. *)
Definition contribution (pages : value) (m : mapping) : Z :=
  match extract_from_pages pages (field m) (code m) with
  | Ok (Some v) => v
  | _ => 0
  end.

Definition component_total (pages : value) (components : list (string * mapping)) : Z :=
  fold_right Z.add 0 (map (contribution pages) (map snd components)).

(** The lookup of [m] returns, a value or [None], without raising. *)
Definition resolves (pages : value) (m : mapping) : Prop :=
  exists r, extract_from_pages pages (field m) (code m) = Ok r.

Definition absent (pages : value) (m : mapping) : Prop :=
  extract_from_pages pages (field m) (code m) = Ok None.

End Metric.

Module Trace.
Import Py FinancialDataExtractor Shape.

(** The exceptions that [extract_from_pages] does not catch. *)
Definition escaping (e : exn) : Prop := e = AttributeError \/ e = OverflowError.

(** Exceptions that the generator expression can raise besides
    [StopIteration]. *)
Definition scan_exn (e : exn) : Prop :=
  e = AttributeError \/ e = KeyError \/ e = TypeError \/ e = ValueError
  \/ e = OverflowError.

(** What the generator yields at a matched liasse: [int(liasse[field])]. *)
Definition read_cell (liasse : value) (field : string) : res (option Z) :=
  cell <- getitem_str liasse field ;;
  v <- int cell ;;
  Ok (Some v).

(** One page of the outer loop. *)
Definition scan_page (page : value) (f c : string) : res (option Z) :=
  l <- get page "liasses" (VList []) ;;
  liasses <- iter l ;;
  scan_liasses liasses f c.

(** The pages that a scan passes over without a trace. *)
Definition clean (c : string) (page : value) : Prop :=
  page_has_code c page = false /\ page_wellformed page = true.

End Trace.

Module Fixtures.
Import Py FinancialDataExtractor Shape.

Definition liasse1 (code m1 : string) : value :=
  VDict [("code", VStr code); ("m1", VStr m1)].

(** One filing of complete accounts with the equity line. *)
Definition filing_complets : value :=
  document [statement (VList [page [liasse2 "DL" "50000" "48000"]])].

(** One filing of simplified accounts with the domestic turnover lines. *)
Definition filing_simplifies : value :=
  document
    [statement
       (VList [page [liasse1 "210" "1000"; liasse1 "214" "2000";
                     liasse1 "218" "0"]])].

(** A liasses array that holds [null]. *)
Definition pages_null_liasse : value := VList [page [VNone]].

Definition filing_null_liasse : value := document [statement pages_null_liasse].

(** A matched cell that holds the float infinity, as [json.loads] reads
    [1e999]. *)
Definition pages_infinite_cell : value :=
  VList [page [VDict [("code", VStr "DL"); ("m1", VFloat (S754_infinity false))]]].

(** A page whose ["liasses"] member is [null], and a page with the
    equity line. *)
Definition page_null_liasses : value := VDict [("liasses", VNone)].

Definition page_DL : value := page [liasse2 "DL" "5" "4"].

(** Bank accounts where the loss of the year outweighs the capital. *)
Definition pages_bank_loss : value :=
  VList [page [liasse2 "P3" "1000" "1000"; liasse2 "P8" "-5000" "-200"]].

(** Both sources of the bank result present, with different values. *)
Definition pages_two_results : value :=
  VList [page [liasse2 "P8" "9" "0"; liasse2 "R3" "7" "0"]].

(** U+00B2, SUPERSCRIPT TWO, nine times. *)
Definition superscript_two : ascii := ascii_of_nat 178.

Definition nine_superscripts : string :=
  string_of_list_ascii (repeat superscript_two 9).

(** The separator removal of [validate_siren] on its own. *)
Definition normalized (siren : string) : string :=
  remove_char "." (remove_char "-" (remove_char " " siren)).

(** Order independence across pages with no condition on the pages
    that do not hold the code. *)
Definition order_independent_on_all_pages : Prop :=
  forall (pages pages' : list value) (field code : string),
    List.length (filter (page_has_code code) pages) = 1%nat ->
    Permutation pages pages' ->
    extract_from_pages (VList pages') field code
    = extract_from_pages (VList pages) field code.

End Fixtures.

(* ===================================================================== *)
(** ** More of the Python run time                                       *)
(* ===================================================================== *)

Module PyMore.
Import Py.

(** [len(o)] *)
Definition len (o : value) : res Z :=
  match o with
  | VList l => Ok (Z.of_nat (List.length l))
  | VStr s => Ok (Z.of_nat (String.length s))
  | VDict d => Ok (Z.of_nat (List.length d))
  | _ => Raise TypeError
  end.

(** Truth value of [o] in [if o:] and [o or ...]. *)
Definition truthy (o : value) : bool :=
  match o with
  | VNone => false
  | VBool b => b
  | VInt z => negb (z =? 0)
  | VFloat (S754_zero _) => false
  | VFloat _ => true
  | VStr s => negb (String.eqb s "")
  | VList l => match l with [] => false | _ :: _ => true end
  | VDict d => match d with [] => false | _ :: _ => true end
  end.

(** [s[:n]] *)
Definition prefix_slice (n : nat) (s : string) : string := substring 0 n s.

(** The exception classes of the validators and of the company client,
    on top of the built-in ones. *)
Inductive error : Type :=
| Builtin (e : exn)
| InvalidSiretError
| RuntimeError.

Inductive outcome (A : Type) : Type :=
| Return (a : A)
| Throw (e : error).
Arguments Return {A} a.
Arguments Throw {A} e.

Definition of_res {A : Type} (r : res A) : outcome A :=
  match r with
  | Ok a => Return a
  | Raise e => Throw (Builtin e)
  end.

Definition and_then {A B : Type} (c : outcome A) (k : A -> outcome B) : outcome B :=
  match c with
  | Return a => k a
  | Throw e => Throw e
  end.

(** An argument of [_get_nested_value]: a member name or an index. *)
Inductive key : Type :=
| KStr (s : string)
| KInt (i : Z).

(** [o[k]] *)
Definition getitem (o : value) (k : key) : res value :=
  match k with
  | KStr s => getitem_str o s
  | KInt i => getitem_int o i
  end.

(** [o[k1][k2]...] *)
Fixpoint subscript (o : value) (keys : list key) : res value :=
  match keys with
  | [] => Ok o
  | k :: rest => v <- getitem o k ;; subscript v rest
  end.

End PyMore.

(* ===================================================================== *)
(** ** src/utils/validators.py, the other functions                      *)
(* ===================================================================== *)

Module SirenSiretValidatorMore.
Import Py PyMore SirenSiretValidator.

(** [validate_siret(siret: Optional[str], allow_none=False)] *)
Definition validate_siret (siret : option string) (allow_none : bool)
    : outcome (option string) :=
  match siret with
  | None => if allow_none then Return None else Throw InvalidSiretError
  | Some siret =>
      let siret := remove_char "." (remove_char "-" (remove_char " " siret)) in
      if negb (Nat.eqb (String.length siret) 14)
      then Throw InvalidSiretError
      else if negb (isdigit siret)
      then Throw InvalidSiretError
      else Return (Some siret)
  end.

(** [extract_siren_from_siret(siret: str)]: [validate_siret(siret)[:9]]. *)
Definition extract_siren_from_siret (siret : string) : outcome string :=
  and_then (validate_siret (Some siret) false)
    (fun validated_siret =>
       match validated_siret with
       | Some v => Return (prefix_slice 9 v)
       | None => Throw (Builtin TypeError)
       end).

(** [is_valid_siren(siren: str)] *)
Definition is_valid_siren (siren : string) : res bool :=
  try_except
    (_ <- validate_siren (Some siren) false ;; Ok true)
    [InvalidSirenError]
    (Ok false).

(** [is_valid_siret(siret: str)] *)
Definition is_valid_siret (siret : string) : outcome bool :=
  match validate_siret (Some siret) false with
  | Return _ => Return true
  | Throw InvalidSiretError => Return false
  | Throw e => Throw e
  end.

End SirenSiretValidatorMore.

(* ===================================================================== *)
(** ** src/inpi/companies.py                                             *)
(* ===================================================================== *)

Module InpiCompaniesClient.
Import Py PyMore.

(** The [for key in keys] loop of [_get_nested_value] and its last line,
    from the value [current]. *)
Fixpoint walk (current : value) (keys : list key) (default : value) : value :=
  match keys with
  | [] =>
      match current with
      | VNone => default
      | _ => current
      end
  | key :: rest =>
      match current with
      | VNone => default
      | VDict d =>
          match key with
          | KStr s =>
              walk (match dict_lookup s d with Some v => v | None => VNone end)
                rest default
          | KInt _ => walk VNone rest default
          end
      | VList l =>
          match key with
          | KInt i =>
              match seq_index l i with
              | Some v => walk v rest default
              | None => default
              end
          | KStr _ => default
          end
      | _ => default
      end
  end.

(** [self._get_nested_value] applied to the keys and the default, with
    [self.output] as first argument. *)
Definition _get_nested_value (output : value) (keys : list key) (default : value)
    : outcome value :=
  match output with
  | VNone => Throw RuntimeError
  | _ => Return (walk output keys default)
  end.

Definition denomination_of (person : string) : list key :=
  [KStr "formality"; KStr "content"; KStr person; KStr "identite";
   KStr "entreprise"; KStr "denomination"].

(** [nom_societe()] *)
Definition nom_societe (output : value) : outcome value :=
  and_then (_get_nested_value output (denomination_of "personneMorale") VNone)
    (fun nom =>
       if truthy nom then Return nom
       else
         and_then (_get_nested_value output (denomination_of "exploitation") VNone)
           (fun nom =>
              if truthy nom then Return nom
              else _get_nested_value output (denomination_of "personnePhysique") VNone)).

Definition pouvoirs_path : list key :=
  [KStr "formality"; KStr "content"; KStr "personneMorale";
   KStr "composition"; KStr "pouvoirs"].

(** [dirigeants_box()] *)
Definition dirigeants_box (output : value) : outcome value :=
  match output with
  | VNone => Throw RuntimeError
  | _ =>
      and_then (_get_nested_value output pouvoirs_path VNone)
        (fun v => Return (if truthy v then v else VList []))
  end.

(** [[index for index, individu in enumerate(pouvoirs)
      if individu.get("typeDePersonne") == type]], from [index] on. *)
Fixpoint indices_of_type (pouvoirs : list value) (index : Z) (type : string)
    : res (list Z) :=
  match pouvoirs with
  | [] => Ok []
  | individu :: rest =>
      t <- get individu "typeDePersonne" VNone ;;
      tl <- indices_of_type rest (index + 1) type ;;
      Ok (if eq_str t type then index :: tl else tl)
  end.

(** [nombre_individus()] *)
Definition nombre_individus (output : value) : outcome (list Z) :=
  and_then (dirigeants_box output)
    (fun pouvoirs =>
       of_res (items <- iter pouvoirs ;; indices_of_type items 0 "INDIVIDU")).

(** [nombre_entreprises()] *)
Definition nombre_entreprises (output : value) : outcome (list Z) :=
  and_then (dirigeants_box output)
    (fun pouvoirs =>
       of_res (items <- iter pouvoirs ;; indices_of_type items 0 "ENTREPRISE")).

(** [nom_entreprise(entreprise: int)] *)
Definition nom_entreprise (output : value) (entreprise : Z) : outcome value :=
  _get_nested_value output
    (pouvoirs_path ++ [KInt entreprise; KStr "entreprise"; KStr "denomination"])%list
    VNone.

End InpiCompaniesClient.

(* ===================================================================== *)
(** ** src/inpi/financials.py                                            *)
(* ===================================================================== *)

(** The methods of [ComptesAnnuelsClient] that read
    [self.documents_associes_entreprise], which is their first argument
    here. *)
Module ComptesAnnuelsClient.
Import Py PyMore.

(** [bilans_saisis_len()] *)
Definition bilans_saisis_len (documents : value) : res Z :=
  bilans <- get documents "bilansSaisis" (VList []) ;;
  len bilans.

(** [bilans_saisis_detail(position: Optional[int] = None)] *)
Definition bilans_saisis_detail (documents : value) (position : option Z) : res value :=
  bilans <- get documents "bilansSaisis" (VList []) ;;
  match position with
  | None => Ok bilans
  | Some position =>
      n <- len bilans ;;
      if position <? n then getitem_int bilans position else Ok VNone
  end.

(** [bilans_saisis_cloture_id()] *)
Fixpoint cloture_id_from (bilans : list value) (i : Z) : res (list (Z * value * value)) :=
  match bilans with
  | [] => Ok []
  | bilan :: rest =>
      date <- get bilan "dateCloture" VNone ;;
      id <- get bilan "id" VNone ;;
      tl <- cloture_id_from rest (i + 1) ;;
      Ok ((i, date, id) :: tl)
  end.

Definition bilans_saisis_cloture_id (documents : value) : res (list (Z * value * value)) :=
  bilans <- get documents "bilansSaisis" (VList []) ;;
  items <- iter bilans ;;
  cloture_id_from items 0.

(** The body shared by [confidentiality], [num_chrono], [date_depot],
    [id_bilan_saisi], [updated_at] and [date_cloture]: the member [name]
    of the statement at [position]. *)
Definition statement_member (name : string) (documents : value) (position : Z)
    : res value :=
  bilans <- get documents "bilansSaisis" (VList []) ;;
  n <- len bilans ;;
  if position <? n
  then bilan <- getitem_int bilans position ;; get bilan name VNone
  else Ok VNone.

Definition date_cloture := statement_member "dateCloture".
Definition id_bilan_saisi := statement_member "id".
Definition date_depot := statement_member "dateDepot".
Definition updated_at := statement_member "updatedAt".
Definition num_chrono := statement_member "numChrono".
Definition confidentiality := statement_member "confidentiality".

(** [type_bilan_saisi(id_bilan=None, position=position)]; with an
    [id_bilan] the method asks the server instead. *)
Definition type_bilan_saisi (documents : value) (position : option Z) : res value :=
  match position with
  | Some position =>
      bilans <- get documents "bilansSaisis" (VList []) ;;
      n <- len bilans ;;
      if position <? n
      then bilan <- getitem_int bilans position ;; get bilan "typeBilan" VNone
      else Ok VNone
  | None => Ok VNone
  end.

(** The body shared by [adresse_metadata], [info_traitement],
    [code_confidentialite], [code_saisie], [code_devise] and the other
    accessors of [bilanSaisi.bilan.identite]. *)
Definition identite_member (name : string) (documents : value) (position : Z)
    : res value :=
  bilans <- get documents "bilansSaisis" (VList []) ;;
  n <- len bilans ;;
  if position <? n
  then
    bilan0 <- getitem_int bilans position ;;
    bilan_saisi <- get bilan0 "bilanSaisi" (VDict []) ;;
    bilan <- get bilan_saisi "bilan" (VDict []) ;;
    identite <- get bilan "identite" (VDict []) ;;
    get identite name VNone
  else Ok VNone.

Definition adresse_metadata := identite_member "adresse".
Definition info_traitement := identite_member "infoTraitement".
Definition code_confidentialite := identite_member "codeConfidentialite".
Definition code_saisie := identite_member "codeSaisie".
Definition code_origine_devise := identite_member "codeOrigineDevise".
Definition code_devise := identite_member "codeDevise".

End ComptesAnnuelsClient.

(* ===================================================================== *)
(** ** More vocabulary                                                   *)
(* ===================================================================== *)

Module More.
Import Py PyMore FinancialDataExtractor Shape.

Definition is_infinity (v : value) : bool :=
  match v with
  | VFloat (S754_infinity _) => true
  | _ => false
  end.

(** No member of the liasse is an infinite float. *)
Definition liasse_finite (liasse : value) : bool :=
  match liasse with
  | VDict d => forallb (fun kv => negb (is_infinity (snd kv))) d
  | _ => true
  end.

(** The mapping that a getter looks up directly for a bilan type, when
    its table holds a single mapping for it. *)
Definition direct_entry (metric : FinancialMetricType.t) (bilan_type : BilanType.t)
    (n_minus_1 : bool) : option mapping :=
  match metric with
  | FinancialMetricType.CAPITAUX_PROPRES =>
      if BilanType.eqb bilan_type BilanType.TBB then None
      else table_lookup bilan_type
             (if n_minus_1
              then FinancialCodeMapping.CAPITAUX_PROPRES_N_1
              else FinancialCodeMapping.CAPITAUX_PROPRES)
  | FinancialMetricType.BENEFICE_PERTE =>
      match table_lookup bilan_type
              (if n_minus_1
               then FinancialCodeMapping.BENEFICE_PERTE_N_1
               else FinancialCodeMapping.BENEFICE_PERTE) with
      | Some (Single m) => Some m
      | _ => None
      end
  | FinancialMetricType.RESULTAT_EXERCICE => None
  | FinancialMetricType.CHIFFRE_AFFAIRES =>
      if BilanType.eqb bilan_type BilanType.TBS then None
      else table_lookup bilan_type
             (if n_minus_1
              then FinancialCodeMapping.CHIFFRE_AFFAIRES_N_1
              else FinancialCodeMapping.CHIFFRE_AFFAIRES)
  | FinancialMetricType.EFFECTIF =>
      table_lookup bilan_type
        (if n_minus_1
         then FinancialCodeMapping.EFFECTIF_N_1
         else FinancialCodeMapping.EFFECTIF)
  end.

(** The string has none of the separators that the validators remove. *)
Definition no_separator (s : string) : bool :=
  forallb (fun c => negb (Ascii.eqb c " " || Ascii.eqb c "-" || Ascii.eqb c "."))
    (list_ascii_of_string s).

(** Every key of the path is a member name. *)
Definition names_only (keys : list key) : bool :=
  forallb (fun k => match k with KStr _ => true | KInt _ => false end) keys.

End More.

Module MoreFixtures.
Import Py PyMore Shape Fixtures.

(** Complete accounts where the result is only on the balance sheet. *)
Definition filing_fallback : value :=
  document [statement (VList [page [liasse2 "DI" "1200" "900"]])].


(** A company record with a legal name and two officers. *)
Definition company : value :=
  VDict [("formality",
    VDict [("content",
      VDict [("personneMorale",
        VDict [("identite",
                VDict [("entreprise",
                        VDict [("denomination", VStr "ACME")])]);
               ("composition",
                VDict [("pouvoirs",
                        VList [VDict [("typeDePersonne", VStr "INDIVIDU")];
                               VDict [("typeDePersonne", VStr "ENTREPRISE");
                                      ("entreprise",
                                       VDict [("denomination", VStr "HOLDING")])]])])])])])].

(** Two statements with their closing dates. *)
Definition attachments : value :=
  VDict [("bilansSaisis",
          VList [VDict [("id", VStr "b1"); ("dateCloture", VStr "2023-12-31");
                        ("typeBilan", VStr "C")];
                 VDict [("id", VStr "b0"); ("dateCloture", VStr "2022-12-31");
                        ("typeBilan", VStr "S")]])].

(** A statement with its identity block, and one without. *)
Definition statement_identite : value :=
  VDict [("id", VStr "b1");
         ("bilanSaisi",
          VDict [("bilan",
                  VDict [("identite", VDict [("codeDevise", VStr "EUR")])])])].

Definition attachments_identite : value :=
  VDict [("bilansSaisis", VList [statement_identite; VDict [("id", VStr "b0")]])].

End MoreFixtures.

Module Paths.
Import Py PyMore.

(** Subscripting [o] by the keys never subscripts a string. *)
Fixpoint indexes_no_string (o : value) (keys : list key) : bool :=
  match keys with
  | [] => true
  | k :: rest =>
      match o with
      | VStr _ => false
      | _ =>
          match getitem o k with
          | Ok v => indexes_no_string v rest
          | Raise _ => true
          end
      end
  end.

(** The ["typeDePersonne"] member of an officer, [None] without one. *)
Definition person_type (o : value) : value :=
  match o with
  | VDict d =>
      match dict_lookup "typeDePersonne" d with
      | Some t => t
      | None => VNone
      end
  | _ => VNone
  end.

(** The member [name] of an object, [None] without one. *)
Definition member (name : string) (o : value) : value :=
  match o with
  | VDict d =>
      match dict_lookup name d with
      | Some t => t
      | None => VNone
      end
  | _ => VNone
  end.

End Paths.

(* ===================================================================== *)
(** ** Exceptions of the navigation and of the extraction                *)
(* ===================================================================== *)

Section Exceptions.
Import Py FinancialDataExtractor Shape Metric.

Lemma getitem_str_exn (o : value) (k : string) (e : exn) :
  getitem_str o k = Raise e -> e = KeyError \/ e = TypeError.
Proof.
  destruct o; simpl; intros H; try (injection H as <-; auto; fail).
  destruct (dict_lookup k d); [discriminate | injection H as <-; auto].
Qed.

Lemma getitem_int_exn (o : value) (i : Z) (e : exn) :
  getitem_int o i = Raise e -> In e getter_handled.
Proof.
  unfold getter_handled.
  destruct o; simpl; intros H; try (injection H as <-; simpl; auto; fail).
  - destruct (seq_index (chars s) i); [discriminate | injection H as <-; simpl; auto].
  - destruct (seq_index l i); [discriminate | injection H as <-; simpl; auto].
Qed.

Lemma getitem_str_handled (o : value) (k : string) (e : exn) :
  getitem_str o k = Raise e -> In e getter_handled.
Proof.
  intros H. destruct (getitem_str_exn _ _ _ H) as [-> | ->]; simpl; auto.
Qed.

(** The path to the pages raises nothing but what the getters catch. *)
Lemma navigate_exn (bilan_data : value) (position : Z) (e : exn) :
  navigate bilan_data position = Raise e -> In e getter_handled.
Proof.
  unfold navigate, bind.
  destruct (getitem_str bilan_data "bilansSaisis") as [a | e0] eqn:E0;
    [ | intros H; injection H as <-; eauto using getitem_str_handled ].
  destruct (getitem_int a position) as [b | e1] eqn:E1;
    [ | intros H; injection H as <-; eauto using getitem_int_exn ].
  destruct (getitem_str b "bilanSaisi") as [c | e2] eqn:E2;
    [ | intros H; injection H as <-; eauto using getitem_str_handled ].
  destruct (getitem_str c "bilan") as [d | e3] eqn:E3;
    [ | intros H; injection H as <-; eauto using getitem_str_handled ].
  destruct (getitem_str d "detail") as [x | e4] eqn:E4;
    [ | intros H; injection H as <-; eauto using getitem_str_handled ].
  apply getitem_str_handled.
Qed.

Lemma caught_In (handled : list exn) (e : exn) :
  In e handled -> caught handled e = true.
Proof.
  intros H. unfold caught. destruct (in_dec exn_eq_dec e handled); [reflexivity | contradiction].
Qed.

(** A getter whose navigation fails returns [None]. *)
Lemma try_navigate_raises {A : Type} (bilan_data : value) (position : Z) (e : exn)
    (k : value -> res (option A)) :
  navigate bilan_data position = Raise e ->
  try_except (pages <- navigate bilan_data position ;; k pages) getter_handled (Ok None)
  = Ok None.
Proof.
  intros H. rewrite H. simpl.
  rewrite (caught_In _ _ (navigate_exn _ _ _ H)). reflexivity.
Qed.

Lemma get_metric_navigate_raises metric bilan_data position bilan_type n_minus_1 e :
  navigate bilan_data position = Raise e ->
  get_metric metric bilan_data position bilan_type n_minus_1 = Ok None.
Proof.
  intros H. destruct metric; simpl;
    [ unfold get_capitaux_propres | unfold get_benefice_perte
    | unfold get_resultat_exercice_tbb | unfold get_chiffre_affaires
    | unfold get_effectif ];
    eapply try_navigate_raises; eassumption.
Qed.

(** A getter with nothing to look up returns [None] on every document. *)
Lemma get_metric_no_entry metric bilan_data position bilan_type n_minus_1 :
  has_entry metric bilan_type n_minus_1 = false ->
  get_metric metric bilan_data position bilan_type n_minus_1 = Ok None.
Proof.
  intros H.
  destruct (navigate bilan_data position) as [pages | e] eqn:N;
    [ | eapply get_metric_navigate_raises; eassumption ].
  destruct metric; simpl in *;
    [ unfold get_capitaux_propres | unfold get_benefice_perte
    | discriminate | unfold get_chiffre_affaires
    | unfold get_effectif ];
    rewrite N; simpl;
    destruct bilan_type, n_minus_1; simpl in H; try discriminate; reflexivity.
Qed.

End Exceptions.

Section Escapes.
Import Py FinancialDataExtractor Shape Metric Trace.

Lemma int_of_str_exn (s : string) (e : exn) :
  int_of_str s = Raise e -> e = ValueError.
Proof.
  unfold int_of_str.
  repeat match goal with
         | |- context [match ?x with _ => _ end] => destruct x
         end;
    intros H; try discriminate; injection H as <-; reflexivity.
Qed.

Lemma int_exn (v : value) (e : exn) :
  int v = Raise e -> e = TypeError \/ e = ValueError \/ e = OverflowError.
Proof.
  destruct v; simpl; intros H; try discriminate;
    try (injection H as <-; auto; fail).
  - destruct f; simpl in H; try discriminate; injection H as <-; auto.
  - apply int_of_str_exn in H. auto.
Qed.

Lemma scan_liasses_exn (ls : list value) (f c : string) (e : exn) :
  scan_liasses ls f c = Raise e -> scan_exn e.
Proof.
  unfold scan_exn. induction ls as [ | l ls IH]; simpl; [discriminate | ].
  destruct l; simpl; try (intros H; injection H as <-; auto; fail).
  destruct (dict_lookup "code" d) as [x | ]; simpl; [ | exact IH ].
  destruct (eq_str x c); [ | exact IH ].
  destruct (dict_lookup f d) as [cell | ]; simpl;
    try (intros H; injection H as <-; auto; fail);
  (destruct (int cell) as [v | e'] eqn:I; simpl; [discriminate | ]);
  intros H; injection H as <-;
  destruct (int_exn _ _ I) as [-> | [-> | ->]]; auto 6.
Qed.

Lemma iter_exn (o : value) (e : exn) : iter o = Raise e -> e = TypeError.
Proof.
  destruct o; simpl; intros H; try discriminate; injection H as <-; reflexivity.
Qed.

Lemma get_exn (o : value) (k : string) (dflt : value) (e : exn) :
  get o k dflt = Raise e -> e = AttributeError.
Proof.
  destruct o; simpl; intros H; try (injection H as <-; reflexivity).
  destruct (dict_lookup k d); discriminate.
Qed.

Lemma scan_pages_exn (ps : list value) (f c : string) (e : exn) :
  scan_pages ps f c = Raise e -> scan_exn e.
Proof.
  induction ps as [ | p ps IH]; simpl; [discriminate | ].
  destruct (get p "liasses" (VList [])) as [l | e0] eqn:G; simpl.
  - destruct (iter l) as [ls | e1] eqn:I; simpl.
    + destruct (scan_liasses ls f c) as [[v | ] | e2] eqn:S; simpl.
      * discriminate.
      * exact IH.
      * intros H; injection H as <-. eapply scan_liasses_exn; eassumption.
    + intros H; injection H as <-. apply iter_exn in I as ->.
      unfold scan_exn; auto.
  - intros H; injection H as <-. apply get_exn in G as ->.
    unfold scan_exn; auto.
Qed.

Lemma first_cell_exn (pages : value) (f c : string) (e : exn) :
  first_cell pages f c = Raise e -> e = StopIteration \/ scan_exn e.
Proof.
  unfold first_cell.
  destruct (iter pages) as [ps | e0] eqn:I; simpl.
  - destruct (scan_pages ps f c) as [[v | ] | e1] eqn:S; simpl.
    + discriminate.
    + intros H; injection H as <-; auto.
    + intros H; injection H as <-. right. eapply scan_pages_exn; eassumption.
  - intros H; injection H as <-. apply iter_exn in I as ->.
    right; unfold scan_exn; auto.
Qed.

(** Only [AttributeError] and [OverflowError] leave [extract_from_pages]. *)
Lemma extract_from_pages_exn (pages : value) (f c : string) (e : exn) :
  extract_from_pages pages f c = Raise e -> escaping e.
Proof.
  unfold extract_from_pages, escaping.
  destruct (first_cell pages f c) as [v | e0] eqn:F; simpl; [discriminate | ].
  apply first_cell_exn in F.
  destruct F as [-> | [-> | [-> | [-> | [-> | ->]]]]]; simpl;
    intros H; try discriminate; injection H as <-; auto.
Qed.

Lemma extract_with_fallback_exn (pages : value) (ms : list mapping) (e : exn) :
  extract_with_fallback pages ms = Raise e -> escaping e.
Proof.
  induction ms as [ | m ms IH]; simpl; [discriminate | ].
  destruct (extract_from_pages pages (field m) (code m)) as [[v | ] | e0] eqn:X; simpl.
  - discriminate.
  - exact IH.
  - intros H; injection H as <-. eapply extract_from_pages_exn; eassumption.
Qed.

Lemma sum_loop_exn (pages : value) (ms : list mapping) (total : Z) (e : exn) :
  sum_loop pages ms total = Raise e -> escaping e.
Proof.
  revert total. induction ms as [ | m ms IH]; simpl; intros total; [discriminate | ].
  destruct (extract_from_pages pages (field m) (code m)) as [r | e0] eqn:X; simpl.
  - apply IH.
  - intros H; injection H as <-. eapply extract_from_pages_exn; eassumption.
Qed.

Lemma extract_sum_from_components_exn pages components e :
  extract_sum_from_components pages components = Raise e -> escaping e.
Proof.
  unfold extract_sum_from_components.
  destruct (sum_loop pages (map snd components) 0) as [t | e0] eqn:S; simpl.
  - discriminate.
  - intros H; injection H as <-. eapply sum_loop_exn; eassumption.
Qed.

(** The getters let through what the extraction lets through, and
    nothing else. *)
Lemma get_metric_exn metric bilan_data position bilan_type n_minus_1 e :
  get_metric metric bilan_data position bilan_type n_minus_1 = Raise e ->
  escaping e.
Proof.
  destruct (navigate bilan_data position) as [pages | e0] eqn:N;
    [ | intros H; rewrite (get_metric_navigate_raises _ _ _ _ _ _ N) in H;
        discriminate ].
  assert (T : forall body : res (option Z),
             (forall e', body = Raise e' -> escaping e') ->
             try_except body getter_handled (Ok None) = Raise e -> escaping e).
  { intros body Hb. destruct body as [r | e']; simpl; [discriminate | ].
    destruct (Hb e' eq_refl) as [-> | ->]; simpl;
      intros H; injection H as <-; unfold escaping; auto. }
  destruct metric; simpl;
    [ unfold get_capitaux_propres | unfold get_benefice_perte
    | unfold get_resultat_exercice_tbb | unfold get_chiffre_affaires
    | unfold get_effectif ];
    rewrite N; simpl; apply T; intros e';
    repeat match goal with
           | |- context [if ?b then _ else _] => destruct b
           | |- context [match table_lookup ?k ?t with _ => _ end] =>
               destruct (table_lookup k t) as [ [? | ?] | ] || destruct (table_lookup k t)
           end;
    try discriminate;
    eauto using extract_from_pages_exn, extract_with_fallback_exn,
                extract_sum_from_components_exn.
Qed.

End Escapes.

(* ===================================================================== *)
(** ** The scan over well-formed pages                                   *)
(* ===================================================================== *)

Section Scan.
Import Py FinancialDataExtractor Shape Metric Trace.

Lemma scan_liasses_cons_dict (d : list (string * value)) (rest : list value)
    (f c : string) :
  scan_liasses (VDict d :: rest) f c
  = if liasse_has_code c (VDict d) then read_cell (VDict d) f
    else scan_liasses rest f c.
Proof.
  simpl. unfold read_cell.
  destruct (dict_lookup "code" d) as [x | ]; simpl; [ | reflexivity ].
  destruct (eq_str x c); reflexivity.
Qed.

(** Objects without the code are passed over. *)
Lemma scan_liasses_none (ls : list value) (f c : string) :
  forallb is_dict ls = true ->
  existsb (liasse_has_code c) ls = false ->
  scan_liasses ls f c = Ok None.
Proof.
  induction ls as [ | l ls IH]; [reflexivity | ].
  cbn [forallb existsb]. intros W E.
  apply andb_true_iff in W as [Wl W]. apply orb_false_iff in E as [El E].
  destruct l; try discriminate.
  rewrite scan_liasses_cons_dict, El. auto.
Qed.

(** The first object with the code is the one that is read. *)
Lemma scan_liasses_find (ls : list value) (f c : string) (l : value) :
  forallb is_dict ls = true ->
  find (liasse_has_code c) ls = Some l ->
  scan_liasses ls f c = read_cell l f.
Proof.
  induction ls as [ | x ls IH]; [discriminate | ].
  cbn [forallb find]. intros W F.
  apply andb_true_iff in W as [Wx W].
  destruct x; try discriminate.
  rewrite scan_liasses_cons_dict.
  destruct (liasse_has_code c (VDict d)).
  - injection F as <-. reflexivity.
  - auto.
Qed.

Lemma scan_pages_cons (page : value) (rest : list value) (f c : string) :
  scan_pages (page :: rest) f c
  = (r <- scan_page page f c ;;
     match r with
     | Some v => Ok (Some v)
     | None => scan_pages rest f c
     end).
Proof.
  simpl. unfold scan_page.
  destruct (get page "liasses" (VList [])) as [l | ]; simpl; [ | reflexivity ].
  destruct (iter l); reflexivity.
Qed.

Lemma scan_page_wellformed (page : value) (f c : string) :
  page_wellformed page = true ->
  scan_page page f c = scan_liasses (page_liasses page) f c
  /\ forallb is_dict (page_liasses page) = true.
Proof.
  unfold scan_page, page_wellformed, page_liasses.
  destruct page; try discriminate. simpl.
  destruct (dict_lookup "liasses" d) as [[ | | | | | ls | ] | ]; simpl;
    try discriminate; auto.
Qed.

(** A well-formed page without the code yields nothing. *)
Lemma scan_page_clean (page : value) (f c : string) :
  page_wellformed page = true ->
  page_has_code c page = false ->
  scan_page page f c = Ok None.
Proof.
  intros W H. destruct (scan_page_wellformed page f c W) as [-> D].
  apply scan_liasses_none; assumption.
Qed.

Lemma scan_pages_app_clean (l1 l2 : list value) (f c : string) :
  Forall (clean c) l1 ->
  scan_pages (l1 ++ l2)%list f c = scan_pages l2 f c.
Proof.
  induction 1 as [ | p l1 [H W] _ IH]; [reflexivity | ].
  rewrite <- app_comm_cons, scan_pages_cons, (scan_page_clean _ _ _ W H).
  exact IH.
Qed.

Lemma scan_pages_clean (l : list value) (f c : string) :
  Forall (clean c) l -> scan_pages l f c = Ok None.
Proof.
  intros H. rewrite <- (app_nil_r l). rewrite scan_pages_app_clean; auto.
Qed.

(** Around a single page [p], clean pages do not change the result. *)
Lemma scan_pages_around (l1 l2 : list value) (p : value) (f c : string) :
  Forall (clean c) l1 -> Forall (clean c) l2 ->
  scan_pages (l1 ++ p :: l2)%list f c = scan_pages [p] f c.
Proof.
  intros H1 H2. rewrite scan_pages_app_clean by assumption.
  rewrite !scan_pages_cons, (scan_pages_clean l2 f c H2). reflexivity.
Qed.

Lemma scan_liasses_app (a b : list value) (f c : string) :
  scan_liasses (a ++ b)%list f c
  = (r <- scan_liasses a f c ;;
     match r with
     | Some v => Ok (Some v)
     | None => scan_liasses b f c
     end).
Proof.
  induction a as [ | l a IH]; simpl.
  - destruct (scan_liasses b f c) as [[v | ] | ]; reflexivity.
  - destruct (get l "code" VNone) as [x | ]; simpl; [ | reflexivity ].
    destruct (eq_str x c); [ | exact IH ].
    destruct (getitem_str l f) as [cell | ]; simpl; [ | reflexivity ].
    destruct (int cell); reflexivity.
Qed.

(** Over well-formed pages the two loops are one loop over all the
    liasses in page order. *)
Lemma scan_pages_wellformed (ps : list value) (f c : string) :
  forallb page_wellformed ps = true ->
  scan_pages ps f c = scan_liasses (flat_map page_liasses ps) f c
  /\ forallb is_dict (flat_map page_liasses ps) = true.
Proof.
  induction ps as [ | p ps IH]; [auto | ].
  cbn [forallb flat_map]. intros W. apply andb_true_iff in W as [Wp W].
  destruct (IH W) as [E D].
  destruct (scan_page_wellformed p f c Wp) as [Ep Dp].
  split.
  - rewrite scan_pages_cons, scan_liasses_app, Ep, E. reflexivity.
  - rewrite forallb_app, Dp, D. reflexivity.
Qed.

(** [extract_from_pages] in terms of the scan. *)
Lemma extract_from_pages_list (ps : list value) (f c : string) :
  extract_from_pages (VList ps) f c
  = try_except
      (r <- scan_pages ps f c ;;
       match r with
       | Some v => Ok (Some v)
       | None => Raise StopIteration
       end)
      [StopIteration; ValueError; KeyError; TypeError]
      (Ok None).
Proof.
  unfold extract_from_pages, first_cell. simpl.
  destruct (scan_pages ps f c) as [[v | ] | ]; reflexivity.
Qed.

(** A cell that reads as an integer is what the extraction returns. *)
Lemma extract_from_pages_found (ps : list value) (f c : string) (l cell : value) (v : Z) :
  forallb page_wellformed ps = true ->
  find (liasse_has_code c) (flat_map page_liasses ps) = Some l ->
  getitem_str l f = Ok cell ->
  int cell = Ok v ->
  extract_from_pages (VList ps) f c = Ok (Some v).
Proof.
  intros W F G I.
  destruct (scan_pages_wellformed ps f c W) as [E D].
  rewrite extract_from_pages_list, E, (scan_liasses_find _ _ _ _ D F).
  unfold read_cell. rewrite G. simpl. rewrite I. reflexivity.
Qed.

(** No liasse with the code anywhere: the extraction returns [None]. *)
Lemma extract_from_pages_missing (ps : list value) (f c : string) :
  forallb page_wellformed ps = true ->
  existsb (liasse_has_code c) (flat_map page_liasses ps) = false ->
  extract_from_pages (VList ps) f c = Ok None.
Proof.
  intros W X.
  destruct (scan_pages_wellformed ps f c W) as [E D].
  rewrite extract_from_pages_list, E, (scan_liasses_none _ _ _ D X).
  reflexivity.
Qed.

End Scan.

(* ===================================================================== *)
(** ** Component sums and fallback chains                                *)
(* ===================================================================== *)

Section Strategies.
Import Py FinancialDataExtractor Shape Metric Trace Fixtures.

Lemma sum_loop_total (pages : value) (ms : list mapping) (total : Z) :
  Forall (resolves pages) ms ->
  sum_loop pages ms total
  = Ok (total + fold_right Z.add 0 (map (contribution pages) ms)).
Proof.
  intros H. revert total.
  induction H as [ | m ms [r Hr] _ IH]; intros total; simpl.
  - f_equal. lia.
  - unfold contribution at 1. rewrite Hr. simpl. rewrite IH.
    f_equal. destruct r; lia.
Qed.

(** The value returned once every component lookup has returned. *)
Lemma extract_sum_from_components_total pages components :
  Forall (resolves pages) (map snd components) ->
  extract_sum_from_components pages components
  = Ok (if component_total pages components >? 0
        then Some (component_total pages components)
        else None).
Proof.
  intros H. unfold extract_sum_from_components, component_total.
  rewrite (sum_loop_total _ _ 0 H). reflexivity.
Qed.

Lemma absent_total pages (ms : list mapping) :
  Forall (absent pages) ms ->
  fold_right Z.add 0 (map (contribution pages) ms) = 0.
Proof.
  induction 1 as [ | m ms Hm _ IH]; simpl; [reflexivity | ].
  unfold contribution at 1. rewrite Hm, IH. reflexivity.
Qed.

(** C2. Once every component has resolved to a value or to absent, an
    absent component adds zero to the total; the total is returned when
    it is strictly positive, and [None] is returned when it is zero, as
    it is when every component is absent. *)
Theorem extract_sum_from_components_positive_or_absent
    (pages : value) (components : list (string * mapping)) :
  Forall (resolves pages) (map snd components) ->
  (forall m, absent pages m -> contribution pages m = 0)
  /\ (0 < component_total pages components ->
      extract_sum_from_components pages components
      = Ok (Some (component_total pages components)))
  /\ (component_total pages components = 0 ->
      extract_sum_from_components pages components = Ok None)
  /\ (Forall (absent pages) (map snd components) ->
      extract_sum_from_components pages components = Ok None).
Proof.
  intros H. rewrite (extract_sum_from_components_total _ _ H).
  split; [ | split; [ | split]].
  - intros m Hm. unfold contribution. rewrite Hm. reflexivity.
  - intros P. destruct (Z.gtb_spec (component_total pages components) 0);
      [reflexivity | lia].
  - intros ->. reflexivity.
  - intros A. unfold component_total. rewrite (absent_total _ _ A). reflexivity.
Qed.

Lemma extract_sum_from_components_positive_or_absent_witness :
  extract_sum_from_components
    (VList [page [liasse2 "210" "0" "1000"; liasse2 "214" "0" "2000"]])
    FinancialCodeMapping.CHIFFRE_AFFAIRES_N_1_TBS
  = Ok (Some 3000).
Proof.
  refine (proj1 (proj2
    (extract_sum_from_components_positive_or_absent
       (VList [page [liasse2 "210" "0" "1000"; liasse2 "214" "0" "2000"]])
       FinancialCodeMapping.CHIFFRE_AFFAIRES_N_1_TBS _)) _).
  - repeat constructor; eexists; vm_compute; reflexivity.
  - vm_compute. reflexivity.
Defined.

(** C9. Once every component has resolved, a strictly negative total is
    reported as [None], like a zero total. *)
Theorem extract_sum_from_components_negative_absent
    (pages : value) (components : list (string * mapping)) :
  Forall (resolves pages) (map snd components) ->
  component_total pages components < 0 ->
  extract_sum_from_components pages components = Ok None.
Proof.
  intros H N. rewrite (extract_sum_from_components_total _ _ H).
  destruct (Z.gtb_spec (component_total pages components) 0); [lia | reflexivity].
Qed.

Lemma extract_sum_from_components_negative_absent_witness :
  component_total pages_bank_loss FinancialCodeMapping.CAPITAUX_PROPRES_TBB = -4000
  /\ extract_sum_from_components pages_bank_loss
       FinancialCodeMapping.CAPITAUX_PROPRES_TBB = Ok None.
Proof.
  split; [vm_compute; reflexivity | ].
  apply (extract_sum_from_components_negative_absent pages_bank_loss
           FinancialCodeMapping.CAPITAUX_PROPRES_TBB).
  - repeat constructor; eexists; vm_compute; reflexivity.
  - vm_compute. reflexivity.
Defined.

Lemma extract_with_fallback_app_absent pages (pre rest : list mapping) :
  Forall (absent pages) pre ->
  extract_with_fallback pages (pre ++ rest)%list = extract_with_fallback pages rest.
Proof.
  induction 1 as [ | m pre Hm _ IH]; simpl; [reflexivity | ].
  rewrite Hm. simpl. exact IH.
Qed.

Lemma extract_with_fallback_none pages (ms : list mapping) :
  extract_with_fallback pages ms = Ok None <-> Forall (absent pages) ms.
Proof.
  induction ms as [ | m ms IH]; simpl.
  - split; auto.
  - unfold absent at 1.
    destruct (extract_from_pages pages (field m) (code m)) as [[v | ] | e] eqn:X;
      simpl.
    + split; [discriminate | ]. intros H. inversion H as [ | ? ? Hm _].
      unfold absent in Hm. congruence.
    + rewrite IH. split; intros H.
      * constructor; assumption.
      * inversion H; assumption.
    + split; [discriminate | ]. intros H. inversion H as [ | ? ? Hm _].
      unfold absent in Hm. congruence.
Qed.

(** C3. The first mapping of the list that resolves to a value decides
    the result, whatever the mappings after it would give; [None] is
    returned exactly when every mapping of the list resolves to absent. *)
Theorem extract_with_fallback_first_wins (pages : value) (mappings : list mapping) :
  (forall pre m post v,
      mappings = (pre ++ m :: post)%list ->
      Forall (absent pages) pre ->
      extract_from_pages pages (field m) (code m) = Ok (Some v) ->
      extract_with_fallback pages mappings = Ok (Some v))
  /\ (extract_with_fallback pages mappings = Ok None
      <-> Forall (absent pages) mappings).
Proof.
  split.
  - intros pre m post v -> A X.
    rewrite (extract_with_fallback_app_absent _ _ _ A). simpl.
    rewrite X. reflexivity.
  - apply extract_with_fallback_none.
Qed.

Lemma extract_with_fallback_first_wins_witness :
  extract_from_pages pages_two_results "m1" "P8" = Ok (Some 9)
  /\ extract_with_fallback pages_two_results
       FinancialCodeMapping.RESULTAT_EXERCICE_TBB = Ok (Some 7).
Proof.
  split; [vm_compute; reflexivity | ].
  apply (proj1 (extract_with_fallback_first_wins pages_two_results
                  FinancialCodeMapping.RESULTAT_EXERCICE_TBB)
           [] (Mapping "m1" "R3") [Mapping "m1" "P8"] 7).
  - reflexivity.
  - constructor.
  - vm_compute. reflexivity.
Defined.

End Strategies.

(* ===================================================================== *)
(** ** The getters                                                       *)
(* ===================================================================== *)

Section Getters.
Import Py FinancialDataExtractor Shape Metric Trace Fixtures.

(** C4. In a document whose statement at [position] has well-formed
    pages in which the liasse with code "DL" has m1 "50000" and m2
    "48000", the equity of complete accounts (type C) is 50000 for the
    current year and 48000 for the year before. *)
Theorem get_capitaux_propres_complets
    (bilan_data : value) (position : Z) (pages : list value) (liasse : value) :
  navigate bilan_data position = Ok (VList pages) ->
  forallb page_wellformed pages = true ->
  find (liasse_has_code "DL") (flat_map page_liasses pages) = Some liasse ->
  getitem_str liasse "m1" = Ok (VStr "50000") ->
  getitem_str liasse "m2" = Ok (VStr "48000") ->
  get_capitaux_propres bilan_data position BilanType.TBC false = Ok (Some 50000)
  /\ get_capitaux_propres bilan_data position BilanType.TBC true = Ok (Some 48000).
Proof.
  intros N W F M1 M2. unfold get_capitaux_propres. rewrite N.
  split; cbn [bind BilanType.eqb]; simpl table_lookup; cbn [field code].
  - rewrite (extract_from_pages_found pages "m1" "DL" liasse _ 50000 W F M1);
      reflexivity.
  - rewrite (extract_from_pages_found pages "m2" "DL" liasse _ 48000 W F M2);
      reflexivity.
Qed.

Lemma get_capitaux_propres_complets_witness :
  get_capitaux_propres filing_complets 0 BilanType.TBC false = Ok (Some 50000)
  /\ get_capitaux_propres filing_complets 0 BilanType.TBC true = Ok (Some 48000).
Proof.
  apply (get_capitaux_propres_complets filing_complets 0
           [page [liasse2 "DL" "50000" "48000"]]
           (liasse2 "DL" "50000" "48000"));
    reflexivity.
Defined.

(** C5. In a document whose statement at [position] has well-formed
    pages in which the liasses with codes "210", "214" and "218" have m1
    "1000", "2000" and "0", and no liasse has code "209", "215" or
    "217", the turnover of simplified accounts (type S) for the current
    year is 3000. *)
Theorem get_chiffre_affaires_simplifies
    (bilan_data : value) (position : Z) (pages : list value)
    (l210 l214 l218 : value) :
  navigate bilan_data position = Ok (VList pages) ->
  forallb page_wellformed pages = true ->
  find (liasse_has_code "210") (flat_map page_liasses pages) = Some l210 ->
  getitem_str l210 "m1" = Ok (VStr "1000") ->
  find (liasse_has_code "214") (flat_map page_liasses pages) = Some l214 ->
  getitem_str l214 "m1" = Ok (VStr "2000") ->
  find (liasse_has_code "218") (flat_map page_liasses pages) = Some l218 ->
  getitem_str l218 "m1" = Ok (VStr "0") ->
  existsb (liasse_has_code "209") (flat_map page_liasses pages) = false ->
  existsb (liasse_has_code "215") (flat_map page_liasses pages) = false ->
  existsb (liasse_has_code "217") (flat_map page_liasses pages) = false ->
  get_chiffre_affaires bilan_data position BilanType.TBS false = Ok (Some 3000).
Proof.
  intros N W F0 M0 F4 M4 F8 M8 X9 X5 X7.
  unfold get_chiffre_affaires. rewrite N.
  cbn [bind BilanType.eqb]. simpl BilanType.eqb. cbv iota.
  unfold extract_sum_from_components, FinancialCodeMapping.CHIFFRE_AFFAIRES_TBS.
  cbn [map snd sum_loop field code].
  rewrite (extract_from_pages_missing pages "m1" "209" W X9).
  rewrite (extract_from_pages_missing pages "m1" "215" W X5).
  rewrite (extract_from_pages_missing pages "m1" "217" W X7).
  rewrite (extract_from_pages_found pages "m1" "210" l210 _ 1000 W F0 M0 eq_refl).
  rewrite (extract_from_pages_found pages "m1" "214" l214 _ 2000 W F4 M4 eq_refl).
  rewrite (extract_from_pages_found pages "m1" "218" l218 _ 0 W F8 M8 eq_refl).
  reflexivity.
Qed.

Lemma get_chiffre_affaires_simplifies_witness :
  get_chiffre_affaires filing_simplifies 0 BilanType.TBS false = Ok (Some 3000).
Proof.
  apply (get_chiffre_affaires_simplifies filing_simplifies 0
           [page [liasse1 "210" "1000"; liasse1 "214" "2000"; liasse1 "218" "0"]]
           (liasse1 "210" "1000") (liasse1 "214" "2000") (liasse1 "218" "0"));
    reflexivity.
Defined.

(** C6. Every getter returns [None], and raises nothing, when it has no
    table entry for the bilan type, when the document has no
    ["bilansSaisis"] member, and when the position lies outside the
    ["bilansSaisis"] array. *)
Theorem get_metric_absent
    (metric : FinancialMetricType.t) (bilan_data : value) (position : Z)
    (bilan_type : BilanType.t) (n_minus_1 : bool) :
  has_entry metric bilan_type n_minus_1 = false
  \/ (exists d, bilan_data = VDict d /\ dict_lookup "bilansSaisis" d = None)
  \/ (exists d statements,
        bilan_data = VDict d
        /\ dict_lookup "bilansSaisis" d = Some (VList statements)
        /\ (Z.of_nat (List.length statements) <= position
            \/ position < - Z.of_nat (List.length statements))) ->
  get_metric metric bilan_data position bilan_type n_minus_1 = Ok None.
Proof.
  intros [H | [(d & -> & L) | (d & statements & -> & L & B)]].
  - apply get_metric_no_entry. assumption.
  - apply (get_metric_navigate_raises _ _ _ _ _ KeyError).
    unfold navigate. simpl. rewrite L. reflexivity.
  - apply (get_metric_navigate_raises _ _ _ _ _ IndexError).
    unfold navigate. simpl. rewrite L. simpl. unfold seq_index.
    destruct (Z.ltb_spec position 0).
    + destruct (Z.ltb_spec (position + Z.of_nat (List.length statements)) 0);
        [reflexivity | lia].
    + destruct (Z.ltb_spec position 0); [lia | ].
      destruct (Z.leb_spec (Z.of_nat (List.length statements)) position);
        [reflexivity | lia].
Qed.

Lemma get_metric_absent_witness :
  get_metric FinancialMetricType.EFFECTIF filing_complets 0 BilanType.TBK false = Ok None
  /\ get_metric FinancialMetricType.CAPITAUX_PROPRES (VDict []) 0 BilanType.TBC false
     = Ok None
  /\ get_metric FinancialMetricType.CAPITAUX_PROPRES filing_complets 1 BilanType.TBC false
     = Ok None
  /\ get_metric FinancialMetricType.CAPITAUX_PROPRES filing_complets (-2) BilanType.TBC true
     = Ok None.
Proof.
  split; [ | split; [ | split]].
  - apply (get_metric_absent FinancialMetricType.EFFECTIF filing_complets 0
             BilanType.TBK false).
    left. reflexivity.
  - apply (get_metric_absent FinancialMetricType.CAPITAUX_PROPRES (VDict []) 0
             BilanType.TBC false).
    right; left. exists []. split; reflexivity.
  - apply (get_metric_absent FinancialMetricType.CAPITAUX_PROPRES filing_complets 1
             BilanType.TBC false).
    right; right. eexists; eexists. split; [reflexivity | ].
    split; [reflexivity | ]. left. simpl. lia.
  - apply (get_metric_absent FinancialMetricType.CAPITAUX_PROPRES filing_complets (-2)
             BilanType.TBC true).
    right; right. eexists; eexists. split; [reflexivity | ].
    split; [reflexivity | ]. right. simpl. lia.
Defined.



Lemma get_metric_navigate metric bilan_data position position' bilan_type n_minus_1 :
  navigate bilan_data position = navigate bilan_data position' ->
  get_metric metric bilan_data position bilan_type n_minus_1
  = get_metric metric bilan_data position' bilan_type n_minus_1.
Proof.
  intros H. destruct metric; simpl;
    [ unfold get_capitaux_propres | unfold get_benefice_perte
    | unfold get_resultat_exercice_tbb | unfold get_chiffre_affaires
    | unfold get_effectif ];
    rewrite H; reflexivity.
Qed.

(** C1. A liasses array that holds [null], and a matched cell that
    holds an infinite float, make [extract_from_pages] and the getters
    raise: [AttributeError] and [OverflowError] are not in the [except]
    clauses. *)
Theorem extract_from_pages_uncaught :
  extract_from_pages pages_null_liasse "m1" "DL" = Raise AttributeError
  /\ extract_from_pages (VList [VNone]) "m1" "DL" = Raise AttributeError
  /\ extract_from_pages pages_infinite_cell "m1" "DL" = Raise OverflowError
  /\ (forall metric n_minus_1,
        get_metric metric filing_null_liasse 0 BilanType.TBC n_minus_1
        = Raise AttributeError)
  /\ get_capitaux_propres (document [statement pages_infinite_cell]) 0
       BilanType.TBC false = Raise OverflowError.
Proof.
  repeat (split; [vm_compute; reflexivity | ]).
  split; [ | vm_compute; reflexivity ].
  intros [ | | | | ] [ | ]; vm_compute; reflexivity.
Qed.

End Getters.

(* ===================================================================== *)
(** ** Order of the pages                                                *)
(* ===================================================================== *)

Section PageOrder.
Import Py FinancialDataExtractor Shape Metric Trace Fixtures.

Lemma filter_Permutation {A : Type} (f : A -> bool) (l l' : list A) :
  Permutation l l' -> Permutation (filter f l) (filter f l').
Proof.
  induction 1 as [ | x l l' _ IH | x y l | l l' l'' _ IH1 _ IH2]; simpl.
  - constructor.
  - destruct (f x); [constructor | ]; assumption.
  - destruct (f x), (f y); try reflexivity. apply perm_swap.
  - etransitivity; eassumption.
Qed.

(** A list with exactly one element satisfying [f] splits around it. *)
Lemma filter_singleton {A : Type} (f : A -> bool) (l : list A) (p : A) :
  filter f l = [p] ->
  exists l1 l2,
    l = (l1 ++ p :: l2)%list
    /\ Forall (fun x => f x = false) l1
    /\ Forall (fun x => f x = false) l2.
Proof.
  induction l as [ | x l IH]; simpl; [discriminate | ].
  destruct (f x) eqn:Fx; intros H.
  - injection H as -> H. exists [], l. split; [reflexivity | ].
    split; [constructor | ].
    apply Forall_forall. intros y Hy.
    destruct (f y) eqn:Fy; [ | reflexivity].
    assert (In y (filter f l)) by (apply filter_In; auto).
    rewrite H in *. contradiction.
  - destruct (IH H) as (l1 & l2 & -> & H1 & H2).
    exists (x :: l1), l2. split; [reflexivity | ]. split; [ | assumption].
    constructor; assumption.
Qed.

(** With one page [p] holding the code and the other pages clean, any
    order of the pages scans like [p] alone. *)
Lemma scan_pages_only_page (pages : list value) (f c : string) (p : value) :
  filter (page_has_code c) pages = [p] ->
  (forall q, In q pages -> page_has_code c q = false -> page_wellformed q = true) ->
  scan_pages pages f c = scan_pages [p] f c.
Proof.
  intros F W.
  destruct (filter_singleton _ _ _ F) as (l1 & l2 & -> & H1 & H2).
  apply scan_pages_around; apply Forall_forall; intros q Hq.
  - split; [exact (proj1 (Forall_forall _ _) H1 q Hq) | ].
    apply W; [apply in_or_app; auto | exact (proj1 (Forall_forall _ _) H1 q Hq)].
  - split; [exact (proj1 (Forall_forall _ _) H2 q Hq) | ].
    apply W; [apply in_or_app; right; right; exact Hq
             | exact (proj1 (Forall_forall _ _) H2 q Hq)].
Qed.

(** C7, as the code has it. When exactly one page [p] contains a liasse
    with the code and every other page is well formed (an object whose
    ["liasses"] member, if any, is an array of objects), every
    permutation of the pages gives the result that [p] alone gives; when
    [p] is well formed too and the cell of its first liasse with the
    code reads as an integer, that integer is the result. *)
Theorem extract_from_pages_page_order
    (pages pages' : list value) (field code : string) (p : value) :
  filter (page_has_code code) pages = [p] ->
  (forall q, In q pages -> page_has_code code q = false -> page_wellformed q = true) ->
  Permutation pages pages' ->
  extract_from_pages (VList pages') field code
  = extract_from_pages (VList [p]) field code
  /\ (forall liasse cell v,
        page_wellformed p = true ->
        find (liasse_has_code code) (page_liasses p) = Some liasse ->
        getitem_str liasse field = Ok cell ->
        int cell = Ok v ->
        extract_from_pages (VList pages') field code = Ok (Some v)).
Proof.
  intros F W P.
  assert (F' : filter (page_has_code code) pages' = [p]).
  { apply Permutation_length_1_inv. rewrite <- F. apply filter_Permutation, P. }
  assert (W' : forall q, In q pages' -> page_has_code code q = false ->
                         page_wellformed q = true).
  { intros q Hq. apply W. eapply Permutation_in; [symmetry | ]; eassumption. }
  assert (E : extract_from_pages (VList pages') field code
              = extract_from_pages (VList [p]) field code).
  { rewrite !extract_from_pages_list.
    rewrite (scan_pages_only_page pages' field code p F' W'). reflexivity. }
  split; [exact E | ].
  intros liasse cell v Wp Fl G I. rewrite E.
  apply (extract_from_pages_found [p] field code liasse cell v).
  - simpl. rewrite Wp. reflexivity.
  - simpl. rewrite app_nil_r. exact Fl.
  - exact G.
  - exact I.
Qed.

Lemma extract_from_pages_page_order_witness :
  extract_from_pages (VList [page []; page_DL; VDict []]) "m1" "DL" = Ok (Some 5).
Proof.
  apply (proj2 (extract_from_pages_page_order
                  [page_DL; page []; VDict []] [page []; page_DL; VDict []]
                  "m1" "DL" page_DL eq_refl
                  ltac:(intros q [<- | [<- | [<- | []]]]; intros; reflexivity)
                  (perm_swap _ _ _))
           (liasse2 "DL" "5" "4") (VStr "5") 5);
    reflexivity.
Defined.

(** C7 as stated fails: a page whose ["liasses"] member is [null] stops
    the scan with a caught [TypeError] when it comes first, and is never
    reached when it comes after the page with the code. *)
Lemma order_independent_on_all_pages_fails : ~ order_independent_on_all_pages.
Proof.
  intros H.
  specialize (H [page_null_liasses; page_DL] [page_DL; page_null_liasses]
                "m1" "DL" eq_refl (perm_swap _ _ _)).
  vm_compute in H. discriminate H.
Qed.

End PageOrder.

(* ===================================================================== *)
(** ** SIREN validation                                                  *)
(* ===================================================================== *)

Section Siren.
Import Py SirenSiretValidator Fixtures.

(** The two tests of [validate_siren] in one. *)
Lemma validate_siren_decides (siren : string) (allow_none : bool) :
  validate_siren (Some siren) allow_none
  = if Nat.eqb (String.length (normalized siren)) 9 && isdigit (normalized siren)
    then Ok (Some (normalized siren))
    else Raise InvalidSirenError.
Proof.
  unfold validate_siren. fold (normalized siren).
  destruct (Nat.eqb (String.length (normalized siren)) 9); simpl; [ | reflexivity].
  destruct (isdigit (normalized siren)); reflexivity.
Qed.

Lemma is_ascii_digit_is_digit_char (c : ascii) :
  is_ascii_digit c = true -> is_digit_char c = true.
Proof.
  unfold is_ascii_digit, is_digit_char. cbv zeta. intros ->. reflexivity.
Qed.

(** Nine ASCII digits after the separators are removed: accepted, and
    the normalized form is returned. *)
Lemma validate_siren_ascii_digits (siren : string) (allow_none : bool) :
  String.length (normalized siren) = 9%nat ->
  forallb is_ascii_digit (list_ascii_of_string (normalized siren)) = true ->
  validate_siren (Some siren) allow_none = Ok (Some (normalized siren)).
Proof.
  intros L D. rewrite validate_siren_decides, L. simpl.
  unfold isdigit.
  destruct (list_ascii_of_string (normalized siren)) as [ | c l] eqn:E.
  - destruct (normalized siren); simpl in *; discriminate.
  - replace (forallb is_digit_char (c :: l)) with true; [reflexivity | ].
    symmetry. apply forallb_forall. intros x Hx.
    apply is_ascii_digit_is_digit_char.
    exact (proj1 (forallb_forall _ _) D x Hx).
Qed.

(** Any other length after normalization: rejected. *)
Lemma validate_siren_wrong_length (siren : string) (allow_none : bool) :
  String.length (normalized siren) <> 9%nat ->
  validate_siren (Some siren) allow_none = Raise InvalidSirenError.
Proof.
  intros L. rewrite validate_siren_decides.
  destruct (Nat.eqb_spec (String.length (normalized siren)) 9); [contradiction | ].
  reflexivity.
Qed.

(** C8. Nine characters SUPERSCRIPT TWO are no ASCII digits, and
    [validate_siren] returns them as a valid SIREN: [str.isdigit] holds
    of every character with the Unicode digit property. *)
Theorem validate_siren_accepts_superscripts :
  forallb is_ascii_digit (list_ascii_of_string (normalized nine_superscripts)) = false
  /\ validate_siren (Some nine_superscripts) false = Ok (Some nine_superscripts).
Proof.
  split; vm_compute; reflexivity.
Qed.

End Siren.

(* ===================================================================== *)
(** ** More on the extractor                                             *)
(* ===================================================================== *)

Section ExtractorMore.
Import Py PyMore FinancialDataExtractor Shape Metric Trace Fixtures More MoreFixtures.

Lemma int_overflow (v : value) :
  int v = Raise OverflowError -> is_infinity v = true.
Proof.
  destruct v; simpl; intros H; try discriminate.
  - destruct f; simpl in H; try discriminate; reflexivity.
  - apply int_of_str_exn in H. discriminate.
Qed.

Lemma dict_lookup_finite (d : list (string * value)) (k : string) (v : value) :
  forallb (fun kv => negb (is_infinity (snd kv))) d = true ->
  dict_lookup k d = Some v ->
  is_infinity v = false.
Proof.
  induction d as [ | [k' v'] d IH]; simpl; [discriminate | ].
  intros H L. apply andb_true_iff in H as [Hv H].
  destruct (String.eqb k k').
  - injection L as <-. apply negb_true_iff. exact Hv.
  - auto.
Qed.

(** Reading a cell of a finite liasse ends in a value or in an exception
    that [extract_from_pages] catches. *)
Lemma read_cell_finite (l : value) (f : string) (e : exn) :
  is_dict l = true -> liasse_finite l = true ->
  read_cell l f = Raise e ->
  e = KeyError \/ e = TypeError \/ e = ValueError.
Proof.
  destruct l; try discriminate. intros _ Fin. unfold read_cell. simpl.
  destruct (dict_lookup f d) as [cell | ] eqn:L; simpl;
    [ | intros H; injection H as <-; auto ].
  destruct (int cell) as [v | e'] eqn:I; simpl; [discriminate | ].
  intros H; injection H as <-.
  destruct (int_exn _ _ I) as [-> | [-> | ->]]; auto.
  apply int_overflow in I. rewrite (dict_lookup_finite _ _ _ Fin L) in I.
  discriminate.
Qed.

Lemma scan_liasses_finite (ls : list value) (f c : string) (e : exn) :
  forallb is_dict ls = true ->
  forallb liasse_finite ls = true ->
  scan_liasses ls f c = Raise e ->
  e = KeyError \/ e = TypeError \/ e = ValueError.
Proof.
  induction ls as [ | l ls IH]; [discriminate | ].
  cbn [forallb]. intros D Fin.
  apply andb_true_iff in D as [Dl D]. apply andb_true_iff in Fin as [Fl Fin].
  destruct l; try discriminate.
  rewrite scan_liasses_cons_dict.
  destruct (liasse_has_code c (VDict d)).
  - apply read_cell_finite; assumption.
  - auto.
Qed.

Lemma extract_from_pages_returns (ps : list value) (f c : string) :
  forallb page_wellformed ps = true ->
  forallb liasse_finite (flat_map page_liasses ps) = true ->
  exists r, extract_from_pages (VList ps) f c = Ok r.
Proof.
  intros W Fin. destruct (scan_pages_wellformed ps f c W) as [E D].
  rewrite extract_from_pages_list, E.
  destruct (scan_liasses (flat_map page_liasses ps) f c) as [[v | ] | e] eqn:S;
    simpl; eauto.
  destruct (scan_liasses_finite _ _ _ _ D Fin S) as [-> | [-> | ->]];
    simpl; eauto.
Qed.

Lemma extract_with_fallback_returns (pages : value) (ms : list mapping) :
  (forall f c, exists r, extract_from_pages pages f c = Ok r) ->
  exists r, extract_with_fallback pages ms = Ok r.
Proof.
  intros H. induction ms as [ | m ms IH]; simpl; eauto.
  destruct (H (field m) (code m)) as [[v | ] ->]; simpl; eauto.
Qed.

Lemma sum_loop_returns (pages : value) (ms : list mapping) (total : Z) :
  (forall f c, exists r, extract_from_pages pages f c = Ok r) ->
  exists t, sum_loop pages ms total = Ok t.
Proof.
  intros H. revert total. induction ms as [ | m ms IH]; intros total; simpl; eauto.
  destruct (H (field m) (code m)) as [r ->]; simpl. apply IH.
Qed.

Lemma extract_sum_from_components_returns pages components :
  (forall f c, exists r, extract_from_pages pages f c = Ok r) ->
  exists r, extract_sum_from_components pages components = Ok r.
Proof.
  intros H. unfold extract_sum_from_components.
  destruct (sum_loop_returns pages (map snd components) 0 H) as [t ->].
  simpl. eauto.
Qed.

(** X1. On a document whose pages at the position are well formed and
    hold no infinite float, no getter raises. *)
Theorem get_metric_returns
    (metric : FinancialMetricType.t) (bilan_data : value) (position : Z)
    (bilan_type : BilanType.t) (n_minus_1 : bool) (pages : list value) :
  navigate bilan_data position = Ok (VList pages) ->
  forallb page_wellformed pages = true ->
  forallb liasse_finite (flat_map page_liasses pages) = true ->
  exists r, get_metric metric bilan_data position bilan_type n_minus_1 = Ok r.
Proof.
  intros N W Fin.
  assert (X : forall f c, exists r, extract_from_pages (VList pages) f c = Ok r)
    by (intros; apply extract_from_pages_returns; assumption).
  assert (T : forall body : res (option Z),
             (exists r, body = Ok r) ->
             exists r, try_except body getter_handled (Ok None) = Ok r).
  { intros body [r ->]. simpl. eauto. }
  destruct metric; simpl;
    [ unfold get_capitaux_propres | unfold get_benefice_perte
    | unfold get_resultat_exercice_tbb | unfold get_chiffre_affaires
    | unfold get_effectif ];
    rewrite N; apply T; cbn [bind];
    repeat match goal with
           | |- context [if ?b then _ else _] => destruct b
           | |- context [match table_lookup ?k ?t with _ => _ end] =>
               destruct (table_lookup k t) as [ [? | ?] | ] || destruct (table_lookup k t)
           end;
    eauto using extract_with_fallback_returns, extract_sum_from_components_returns.
Qed.

Lemma get_metric_returns_witness :
  exists r,
    get_metric FinancialMetricType.BENEFICE_PERTE filing_fallback 0 BilanType.TBC false
    = Ok r.
Proof.
  apply (get_metric_returns FinancialMetricType.BENEFICE_PERTE filing_fallback 0
           BilanType.TBC false [page [liasse2 "DI" "1200" "900"]]);
    reflexivity.
Defined.



Lemma fold_add_Permutation (l l' : list Z) :
  Permutation l l' -> fold_right Z.add 0 l = fold_right Z.add 0 l'.
Proof.
  induction 1; simpl; lia.
Qed.

(** X3. Once every component has resolved, the order of the components
    does not change the result of the sum. *)
Theorem extract_sum_from_components_order
    (pages : value) (components components' : list (string * mapping)) :
  Forall (resolves pages) (map snd components) ->
  Permutation components components' ->
  extract_sum_from_components pages components'
  = extract_sum_from_components pages components.
Proof.
  intros R P.
  assert (R' : Forall (resolves pages) (map snd components')).
  { apply Forall_forall. intros m Hm.
    apply (proj1 (Forall_forall _ _) R).
    eapply Permutation_in; [ | exact Hm].
    apply Permutation_map. symmetry. exact P. }
  rewrite (extract_sum_from_components_total _ _ R),
          (extract_sum_from_components_total _ _ R').
  assert (T : component_total pages components' = component_total pages components).
  { unfold component_total. apply fold_add_Permutation.
    apply Permutation_map, Permutation_map. symmetry. exact P. }
  rewrite T. reflexivity.
Qed.

Lemma extract_sum_from_components_order_witness :
  extract_sum_from_components pages_bank_loss
    (rev FinancialCodeMapping.CAPITAUX_PROPRES_TBB)
  = extract_sum_from_components pages_bank_loss
      FinancialCodeMapping.CAPITAUX_PROPRES_TBB.
Proof.
  apply (extract_sum_from_components_order pages_bank_loss
           FinancialCodeMapping.CAPITAUX_PROPRES_TBB
           (rev FinancialCodeMapping.CAPITAUX_PROPRES_TBB)).
  - repeat constructor; eexists; vm_compute; reflexivity.
  - apply Permutation_rev.
Defined.

Lemma sum_result_positive pages components v :
  extract_sum_from_components pages components = Ok (Some v) -> 0 < v.
Proof.
  unfold extract_sum_from_components.
  destruct (sum_loop pages (map snd components) 0) as [t | e]; simpl;
    [ | discriminate].
  destruct (Z.gtb_spec t 0) as [P | P]; intros E; [ | discriminate].
  injection E as <-. lia.
Qed.

(** X4. The two getters that sum components never return zero or a
    negative number: the equity of bank accounts (type B) and the
    turnover of simplified accounts (type S) are strictly positive
    whenever they are returned. *)
Theorem sum_getters_positive
    (bilan_data : value) (position : Z) (n_minus_1 : bool) (v : Z) :
  get_capitaux_propres bilan_data position BilanType.TBB n_minus_1 = Ok (Some v)
  \/ get_chiffre_affaires bilan_data position BilanType.TBS n_minus_1 = Ok (Some v) ->
  0 < v.
Proof.
  unfold get_capitaux_propres, get_chiffre_affaires.
  destruct (navigate bilan_data position) as [pages | e] eqn:N; simpl.
  - change (BilanType.eqb BilanType.TBB BilanType.TBB) with true.
    change (BilanType.eqb BilanType.TBS BilanType.TBS) with true.
    cbv iota.
    intros [H | H];
      match type of H with
      | try_except ?b _ _ = _ => destruct b as [r | e'] eqn:X
      end; simpl in H.
    + injection H as ->. eapply sum_result_positive; eassumption.
    + destruct (caught getter_handled e'); discriminate.
    + injection H as ->. eapply sum_result_positive; eassumption.
    + destruct (caught getter_handled e'); discriminate.
  - destruct (caught getter_handled e); intros [H | H]; discriminate.
Qed.

Lemma sum_getters_positive_witness :
  get_chiffre_affaires filing_simplifies 0 BilanType.TBS false = Ok (Some 3000)
  /\ 0 < 3000.
Proof.
  split; [reflexivity | ].
  apply (sum_getters_positive filing_simplifies 0 false 3000).
  right. reflexivity.
Defined.

(** X5. Profit or loss of complete accounts (type C): the line "HN" of
    the income statement is returned when it reads as an integer,
    whatever the line "DI" holds; when no liasse has code "HN", the line
    "DI" of the balance sheet is returned. *)
Theorem get_benefice_perte_complets
    (bilan_data : value) (position : Z) (pages : list value) :
  navigate bilan_data position = Ok (VList pages) ->
  forallb page_wellformed pages = true ->
  (forall liasse cell v,
      find (liasse_has_code "HN") (flat_map page_liasses pages) = Some liasse ->
      getitem_str liasse "m1" = Ok cell ->
      int cell = Ok v ->
      get_benefice_perte bilan_data position BilanType.TBC false = Ok (Some v))
  /\ (forall liasse cell v,
        existsb (liasse_has_code "HN") (flat_map page_liasses pages) = false ->
        find (liasse_has_code "DI") (flat_map page_liasses pages) = Some liasse ->
        getitem_str liasse "m1" = Ok cell ->
        int cell = Ok v ->
        get_benefice_perte bilan_data position BilanType.TBC false = Ok (Some v)).
Proof.
  intros N W. unfold get_benefice_perte. rewrite N.
  cbn [bind]. simpl table_lookup. cbn [extract_with_fallback field code].
  split.
  - intros liasse cell v F G I.
    rewrite (extract_from_pages_found pages "m1" "HN" liasse cell v W F G I).
    reflexivity.
  - intros liasse cell v X F G I.
    rewrite (extract_from_pages_missing pages "m1" "HN" W X). cbn [bind].
    rewrite (extract_from_pages_found pages "m1" "DI" liasse cell v W F G I).
    reflexivity.
Qed.

Lemma get_benefice_perte_complets_witness :
  get_benefice_perte filing_fallback 0 BilanType.TBC false = Ok (Some 1200).
Proof.
  apply (proj2 (get_benefice_perte_complets filing_fallback 0
                  [page [liasse2 "DI" "1200" "900"]] eq_refl eq_refl)
           (liasse2 "DI" "1200" "900") (VStr "1200") 1200);
    reflexivity.
Defined.

Lemma direct_entry_unfold metric bilan_data position bilan_type n_minus_1 m pages :
  direct_entry metric bilan_type n_minus_1 = Some m ->
  navigate bilan_data position = Ok pages ->
  get_metric metric bilan_data position bilan_type n_minus_1
  = try_except (extract_from_pages pages (field m) (code m)) getter_handled (Ok None).
Proof.
  intros D N.
  destruct metric; simpl in D |- *;
    [ unfold get_capitaux_propres | unfold get_benefice_perte
    | discriminate | unfold get_chiffre_affaires
    | unfold get_effectif ];
    rewrite N; cbn [bind];
    destruct bilan_type, n_minus_1; simpl in D; try discriminate;
    injection D as <-; reflexivity.
Qed.

(** X6. Where the table of a getter holds a single mapping for the bilan
    type, the getter returns the integer read from the given field of
    the first liasse with the given code, of either sign. *)
Theorem get_metric_direct
    (metric : FinancialMetricType.t) (bilan_data : value) (position : Z)
    (bilan_type : BilanType.t) (n_minus_1 : bool) (m : mapping)
    (pages : list value) (liasse cell : value) (v : Z) :
  direct_entry metric bilan_type n_minus_1 = Some m ->
  navigate bilan_data position = Ok (VList pages) ->
  forallb page_wellformed pages = true ->
  find (liasse_has_code (code m)) (flat_map page_liasses pages) = Some liasse ->
  getitem_str liasse (field m) = Ok cell ->
  int cell = Ok v ->
  get_metric metric bilan_data position bilan_type n_minus_1 = Ok (Some v).
Proof.
  intros D N W F G I.
  rewrite (direct_entry_unfold _ _ _ _ _ _ _ D N).
  rewrite (extract_from_pages_found pages (field m) (code m) liasse cell v W F G I).
  reflexivity.
Qed.

Lemma get_metric_direct_witness :
  get_metric FinancialMetricType.BENEFICE_PERTE
    (document [statement (VList [page [liasse2 "R6" "-700" "0"]])]) 0
    BilanType.TBK false
  = Ok (Some (-700)).
Proof.
  apply (get_metric_direct FinancialMetricType.BENEFICE_PERTE
           (document [statement (VList [page [liasse2 "R6" "-700" "0"]])]) 0
           BilanType.TBK false (Mapping "m1" "R6")
           [page [liasse2 "R6" "-700" "0"]]
           (liasse2 "R6" "-700" "0") (VStr "-700") (-700));
    reflexivity.
Defined.

Lemma seq_index_negative {A : Type} (l : list A) (i : Z) :
  - Z.of_nat (List.length l) <= i < 0 ->
  seq_index l i = seq_index l (i + Z.of_nat (List.length l)).
Proof.
  intros H. unfold seq_index. cbv zeta.
  assert (E1 : (i <? 0) = true) by (apply Z.ltb_lt; lia).
  assert (E2 : (i + Z.of_nat (List.length l) <? 0) = false) by (apply Z.ltb_ge; lia).
  rewrite E1. cbv iota. rewrite !E2. cbv iota. rewrite ?E2. reflexivity.
Qed.

Lemma seq_index_below {A : Type} (l : list A) (i : Z) :
  i < - Z.of_nat (List.length l) -> seq_index l i = None.
Proof.
  intros H. unfold seq_index. cbv zeta.
  assert (E1 : (i <? 0) = true) by (apply Z.ltb_lt; lia).
  assert (E2 : (i + Z.of_nat (List.length l) <? 0) = true) by (apply Z.ltb_lt; lia).
  rewrite E1. cbv iota. rewrite E2. reflexivity.
Qed.

Lemma seq_index_nth_error {A : Type} (l : list A) (i : Z) :
  0 <= i -> seq_index l i = nth_error l (Z.to_nat i).
Proof.
  intros H. unfold seq_index. cbv zeta.
  assert (E : (i <? 0) = false) by (apply Z.ltb_ge; lia).
  rewrite E. cbv iota. rewrite E. cbn [orb].
  destruct (Z.leb_spec (Z.of_nat (List.length l)) i); [ | reflexivity].
  symmetry. apply nth_error_None. lia.
Qed.

(** X7. A negative position from [-len] up counts from the end of the
    ["bilansSaisis"] array: every getter returns for it what it returns
    for [position + len]. *)
Theorem get_metric_negative_position
    (metric : FinancialMetricType.t) (d : list (string * value))
    (statements : list value) (position : Z)
    (bilan_type : BilanType.t) (n_minus_1 : bool) :
  dict_lookup "bilansSaisis" d = Some (VList statements) ->
  - Z.of_nat (List.length statements) <= position < 0 ->
  get_metric metric (VDict d) position bilan_type n_minus_1
  = get_metric metric (VDict d) (position + Z.of_nat (List.length statements))
      bilan_type n_minus_1.
Proof.
  intros L H. apply get_metric_navigate. unfold navigate. simpl. rewrite L.
  simpl. rewrite (seq_index_negative _ _ H). reflexivity.
Qed.

Lemma get_metric_negative_position_witness :
  get_metric FinancialMetricType.CAPITAUX_PROPRES
    (document [statement (VList [page_DL]); statement VNone; statement VNone]) (-3)
    BilanType.TBC false
  = get_metric FinancialMetricType.CAPITAUX_PROPRES
      (document [statement (VList [page_DL]); statement VNone; statement VNone])
      (-3 + 3) BilanType.TBC false.
Proof.
  apply (get_metric_negative_position FinancialMetricType.CAPITAUX_PROPRES
           [("bilansSaisis",
             VList [statement (VList [page_DL]); statement VNone; statement VNone])]
           [statement (VList [page_DL]); statement VNone; statement VNone] (-3)
           BilanType.TBC false).
  - reflexivity.
  - simpl. lia.
Defined.

End ExtractorMore.

(* ===================================================================== *)
(** ** More on the validators                                            *)
(* ===================================================================== *)

Section ValidatorsMore.
Import Py PyMore SirenSiretValidator SirenSiretValidatorMore Fixtures More.

Lemma validate_siret_decides (siret : string) (allow_none : bool) :
  validate_siret (Some siret) allow_none
  = if Nat.eqb (String.length (normalized siret)) 14 && isdigit (normalized siret)
    then Return (Some (normalized siret))
    else Throw InvalidSiretError.
Proof.
  unfold validate_siret. fold (normalized siret).
  destruct (Nat.eqb (String.length (normalized siret)) 14); simpl; [ | reflexivity].
  destruct (isdigit (normalized siret)); reflexivity.
Qed.

Lemma is_digit_char_no_separator (c : ascii) :
  is_digit_char c = true ->
  negb (Ascii.eqb c " " || Ascii.eqb c "-" || Ascii.eqb c ".") = true.
Proof.
  destruct c as [b0 b1 b2 b3 b4 b5 b6 b7].
  destruct b0, b1, b2, b3, b4, b5, b6, b7; vm_compute; congruence.
Qed.

Lemma isdigit_forallb (s : string) :
  isdigit s = true -> forallb is_digit_char (list_ascii_of_string s) = true.
Proof.
  unfold isdigit. destruct (list_ascii_of_string s); [discriminate | auto].
Qed.

Lemma isdigit_no_separator (s : string) :
  isdigit s = true -> no_separator s = true.
Proof.
  intros H. apply isdigit_forallb in H. unfold no_separator.
  apply forallb_forall. intros c Hc. apply is_digit_char_no_separator.
  exact (proj1 (forallb_forall _ _) H c Hc).
Qed.

Lemma remove_char_absent (c : ascii) (s : string) :
  forallb (fun a => negb (Ascii.eqb a c)) (list_ascii_of_string s) = true ->
  remove_char c s = s.
Proof.
  induction s as [ | a s IH]; simpl; [reflexivity | ].
  intros H. apply andb_true_iff in H as [Ha H].
  apply negb_true_iff in Ha. rewrite Ha, (IH H). reflexivity.
Qed.

(** A string without separators is its own normal form. *)
Lemma normalized_no_separator (s : string) :
  no_separator s = true -> normalized s = s.
Proof.
  unfold no_separator, normalized. intros H.
  assert (P : forall c : ascii,
             (forall a, negb (Ascii.eqb a " " || Ascii.eqb a "-" || Ascii.eqb a ".") = true ->
                        negb (Ascii.eqb a c) = true) ->
             forallb (fun a => negb (Ascii.eqb a c)) (list_ascii_of_string s) = true).
  { intros c Hc. apply forallb_forall. intros a Ha. apply Hc.
    exact (proj1 (forallb_forall _ _) H a Ha). }
  rewrite (remove_char_absent " "), (remove_char_absent "-"), (remove_char_absent ".");
    try reflexivity; apply P; intros a Ha;
    apply negb_true_iff in Ha; apply orb_false_iff in Ha as [Ha1 Ha3];
    apply orb_false_iff in Ha1 as [Ha1 Ha2]; apply negb_true_iff; assumption.
Qed.

(** X8. What [validate_siren] returns is the input without its spaces,
    hyphens and periods, has nine characters, all of them digits, none of
    them a separator, and is accepted unchanged when validated again. *)
Theorem validate_siren_normal_form (siren n : string) (allow_none allow_none' : bool) :
  validate_siren (Some siren) allow_none = Ok (Some n) ->
  n = normalized siren
  /\ String.length n = 9%nat
  /\ isdigit n = true
  /\ no_separator n = true
  /\ validate_siren (Some n) allow_none' = Ok (Some n).
Proof.
  rewrite (validate_siren_decides siren).
  destruct (Nat.eqb_spec (String.length (normalized siren)) 9) as [L | L];
    cbn [andb]; [ | discriminate].
  destruct (isdigit (normalized siren)) eqn:D; [ | discriminate].
  intros H. injection H as <-.
  pose proof (isdigit_no_separator _ D) as S.
  split; [reflexivity | ]. split; [exact L | ]. split; [exact D | ].
  split; [exact S | ].
  rewrite validate_siren_decides, (normalized_no_separator _ S), L, D. reflexivity.
Qed.

Lemma validate_siren_normal_form_witness :
  validate_siren (Some "123 456-789") true = Ok (Some "123456789")
  /\ validate_siren (Some "123456789") false = Ok (Some "123456789").
Proof.
  split; [reflexivity | ].
  apply (validate_siren_normal_form "123 456-789" "123456789" true false).
  reflexivity.
Defined.

(** X9. Nine ASCII digits are a valid SIREN and fourteen a valid SIRET
    wherever spaces, hyphens and periods are put between them; the digits
    alone are returned. *)
Theorem validators_accept_ascii_digits (s : string) (allow_none : bool) :
  forallb is_ascii_digit (list_ascii_of_string (normalized s)) = true ->
  (String.length (normalized s) = 9%nat ->
   validate_siren (Some s) allow_none = Ok (Some (normalized s)))
  /\ (String.length (normalized s) = 14%nat ->
      validate_siret (Some s) allow_none = Return (Some (normalized s))).
Proof.
  intros D. split; intros L.
  - apply validate_siren_ascii_digits; assumption.
  - rewrite validate_siret_decides, L. simpl.
    unfold isdigit.
    destruct (list_ascii_of_string (normalized s)) as [ | c l] eqn:E.
    + destruct (normalized s); simpl in *; discriminate.
    + replace (forallb is_digit_char (c :: l)) with true; [reflexivity | ].
      symmetry. apply forallb_forall. intros x Hx.
      apply is_ascii_digit_is_digit_char.
      exact (proj1 (forallb_forall _ _) D x Hx).
Qed.

Lemma validators_accept_ascii_digits_witness :
  validate_siren (Some "123.456.789") false = Ok (Some "123456789")
  /\ validate_siret (Some "123 456 789 00012") false = Return (Some "12345678900012").
Proof.
  split.
  - apply (proj1 (validators_accept_ascii_digits "123.456.789" false eq_refl)).
    reflexivity.
  - apply (proj2 (validators_accept_ascii_digits "123 456 789 00012" false eq_refl)).
    reflexivity.
Defined.

Lemma list_ascii_prefix_slice (n : nat) (s : string) :
  list_ascii_of_string (prefix_slice n s) = firstn n (list_ascii_of_string s).
Proof.
  unfold prefix_slice. revert n.
  induction s as [ | a s IH]; intros [ | n]; simpl; try reflexivity.
  rewrite IH. reflexivity.
Qed.

Lemma length_list_ascii (s : string) :
  List.length (list_ascii_of_string s) = String.length s.
Proof.
  induction s; simpl; congruence.
Qed.

Lemma forallb_firstn {A : Type} (f : A -> bool) (n : nat) (l : list A) :
  forallb f l = true -> forallb f (firstn n l) = true.
Proof.
  revert n. induction l as [ | a l IH]; intros [ | n]; simpl; auto.
  intros H. apply andb_true_iff in H as [-> H]. simpl. auto.
Qed.

(** X10. The SIREN extracted from a SIRET is the first nine characters of
    the normalized SIRET, and it is a valid SIREN. *)
Theorem extract_siren_from_siret_valid (siret r : string) :
  extract_siren_from_siret siret = Return r ->
  validate_siret (Some siret) false = Return (Some (normalized siret))
  /\ r = prefix_slice 9 (normalized siret)
  /\ validate_siren (Some r) false = Ok (Some r).
Proof.
  unfold extract_siren_from_siret. rewrite validate_siret_decides.
  destruct (Nat.eqb_spec (String.length (normalized siret)) 14) as [L | L];
    cbn [andb and_then]; [ | discriminate].
  destruct (isdigit (normalized siret)) eqn:D; cbn [and_then]; [ | discriminate].
  intros H. injection H as <-. split; [reflexivity | ]. split; [reflexivity | ].
  set (v := normalized siret) in *.
  assert (Dr : forallb is_digit_char (list_ascii_of_string (prefix_slice 9 v)) = true).
  { rewrite list_ascii_prefix_slice. apply forallb_firstn, isdigit_forallb, D. }
  assert (Lr : String.length (prefix_slice 9 v) = 9%nat).
  { rewrite <- length_list_ascii, list_ascii_prefix_slice, length_firstn,
      length_list_ascii, L. reflexivity. }
  assert (Ir : isdigit (prefix_slice 9 v) = true).
  { unfold isdigit.
    destruct (list_ascii_of_string (prefix_slice 9 v)) as [ | c l] eqn:E; [ | exact Dr].
    rewrite <- length_list_ascii, E in Lr. discriminate. }
  rewrite validate_siren_decides,
    (normalized_no_separator _ (isdigit_no_separator _ Ir)), Lr, Ir.
  reflexivity.
Qed.

Lemma extract_siren_from_siret_valid_witness :
  extract_siren_from_siret "123 456 789 00012" = Return "123456789"
  /\ validate_siren (Some "123456789") false = Ok (Some "123456789").
Proof.
  split; [reflexivity | ].
  apply (extract_siren_from_siret_valid "123 456 789 00012" "123456789").
  reflexivity.
Defined.

(** X11. No string is both a valid SIREN and a valid SIRET: what one
    validator accepts, the other rejects with its own error. *)
Theorem siren_siret_exclusive (s : string) (allow_none allow_none' : bool) :
  ((exists n, validate_siren (Some s) allow_none = Ok (Some n)) ->
   validate_siret (Some s) allow_none' = Throw InvalidSiretError)
  /\ ((exists n, validate_siret (Some s) allow_none' = Return (Some n)) ->
      validate_siren (Some s) allow_none = Raise InvalidSirenError).
Proof.
  rewrite validate_siren_decides, validate_siret_decides.
  destruct (Nat.eqb_spec (String.length (normalized s)) 9) as [L9 | L9];
    destruct (Nat.eqb_spec (String.length (normalized s)) 14) as [L14 | L14];
    simpl; try (rewrite L9 in L14; discriminate);
    destruct (isdigit (normalized s)); split; intros [n H];
    try discriminate; reflexivity.
Qed.

Lemma siren_siret_exclusive_witness :
  validate_siret (Some "123456789") false = Throw InvalidSiretError.
Proof.
  apply (proj1 (siren_siret_exclusive "123456789" false false)).
  exists "123456789". reflexivity.
Defined.

(** X12. [is_valid_siren] and [is_valid_siret] never raise; each is true
    exactly when its validator returns the normalized code. *)
Theorem is_valid_never_raises (s : string) :
  (exists b, is_valid_siren s = Ok b)
  /\ (is_valid_siren s = Ok true
      <-> validate_siren (Some s) false = Ok (Some (normalized s)))
  /\ (exists b, is_valid_siret s = Return b)
  /\ (is_valid_siret s = Return true
      <-> validate_siret (Some s) false = Return (Some (normalized s))).
Proof.
  unfold is_valid_siren, is_valid_siret.
  rewrite validate_siren_decides, validate_siret_decides.
  destruct (Nat.eqb (String.length (normalized s)) 9 && isdigit (normalized s));
    destruct (Nat.eqb (String.length (normalized s)) 14 && isdigit (normalized s));
    simpl; repeat split; eauto; intros H; discriminate.
Qed.

End ValidatorsMore.

(* ===================================================================== *)
(** ** The nested lookup of the company client                           *)
(* ===================================================================== *)

Section NestedValue.
Import Py PyMore InpiCompaniesClient More MoreFixtures Paths.

Lemma walk_none (keys : list key) (default : value) :
  walk VNone keys default = default.
Proof.
  destruct keys; reflexivity.
Qed.




Lemma walk_sound (current : value) (keys : list key) (default : value) :
  walk current keys default = default
  \/ subscript current keys = Ok (walk current keys default).
Proof.
  revert current. induction keys as [ | k keys IH]; intros current; simpl.
  - destruct current; auto.
  - destruct current; auto.
    + destruct k; auto. simpl.
      destruct (seq_index l i) as [x | ]; simpl; auto.
    + destruct k; simpl.
      * destruct (dict_lookup s d) as [x | ]; simpl; [apply IH | ].
        left. apply walk_none.
      * left. apply walk_none.
Qed.

(** X14. What [_get_nested_value] returns is the default, or the value
    that plain subscripting [output[k1][k2]...] reaches. *)
Theorem get_nested_value_sound
    (output : value) (keys : list key) (default v : value) :
  _get_nested_value output keys default = Return v ->
  v = default \/ subscript output keys = Ok v.
Proof.
  unfold _get_nested_value. intros H.
  destruct (walk_sound output keys default) as [E | E];
    destruct output; try discriminate; injection H as <-; auto.
Qed.

Lemma get_nested_value_sound_witness :
  VStr "ACME" = VNone
  \/ subscript company (denomination_of "personneMorale") = Ok (VStr "ACME").
Proof.
  apply (get_nested_value_sound company (denomination_of "personneMorale")
           VNone (VStr "ACME")).
  reflexivity.
Defined.

Lemma walk_complete (current : value) (keys : list key) (default v : value) :
  subscript current keys = Ok v ->
  v <> VNone ->
  indexes_no_string current keys = true ->
  walk current keys default = v.
Proof.
  revert current. induction keys as [ | k keys IH]; intros current; simpl.
  - intros H N _. injection H as <-. destruct current; congruence.
  - destruct current; destruct k; simpl; try discriminate.
    + destruct (seq_index l i) as [x | ]; simpl; [apply IH | discriminate].
    + destruct (dict_lookup s d) as [x | ]; simpl; [apply IH | discriminate].
Qed.

Lemma get_nested_value_reaches
    (output : value) (keys : list key) (default v : value) :
  subscript output keys = Ok v ->
  v <> VNone ->
  indexes_no_string output keys = true ->
  _get_nested_value output keys default = Return v.
Proof.
  intros S N I. unfold _get_nested_value.
  rewrite (walk_complete output keys default v S N I).
  destruct output; try reflexivity.
  destruct keys as [ | [s | i] keys]; simpl in S;
    [injection S as <-; congruence | discriminate | discriminate].
Qed.

(** X15. When subscripting [output[k1][k2]...] succeeds without
    subscripting a string and reaches a value other than [None],
    [_get_nested_value] returns that value, whatever the default. *)
Theorem get_nested_value_complete
    (output : value) (keys : list key) (default v : value) :
  subscript output keys = Ok v ->
  v <> VNone ->
  indexes_no_string output keys = true ->
  _get_nested_value output keys default = Return v.
Proof.
  exact (get_nested_value_reaches output keys default v).
Qed.

Lemma get_nested_value_complete_witness :
  _get_nested_value company
    (pouvoirs_path ++ [KInt (-1); KStr "entreprise"; KStr "denomination"])%list
    (VStr "?")
  = Return (VStr "HOLDING").
Proof.
  apply (get_nested_value_complete company
           (pouvoirs_path ++ [KInt (-1); KStr "entreprise"; KStr "denomination"])%list
           (VStr "?") (VStr "HOLDING")).
  - reflexivity.
  - discriminate.
  - reflexivity.
Defined.

Lemma walk_app (current : value) (keys1 keys2 : list key) (default : value) :
  walk current (keys1 ++ keys2)%list default
  = match walk current keys1 VNone with
    | VNone => default
    | v1 => walk v1 keys2 default
    end.
Proof.
  revert current. induction keys1 as [ | k keys1 IH]; intros current; simpl.
  - destruct current; try reflexivity. apply walk_none.
  - destruct current; try reflexivity.
    + destruct k; [reflexivity | ]. destruct (seq_index l i); [apply IH | reflexivity].
    + destruct k; apply IH.
Qed.

(** X16. A path can be looked up in two steps: the lookup of
    [keys1 ++ keys2] is the lookup of [keys2] in what the lookup of
    [keys1] finds, and the default when that finds nothing. *)
Theorem get_nested_value_app
    (output : value) (keys1 keys2 : list key) (default : value) :
  _get_nested_value output (keys1 ++ keys2)%list default
  = and_then (_get_nested_value output keys1 VNone)
      (fun v1 =>
         match v1 with
         | VNone => Return default
         | _ => _get_nested_value v1 keys2 default
         end).
Proof.
  unfold _get_nested_value.
  destruct output; try reflexivity; cbn [and_then]; rewrite walk_app;
    match goal with
    | |- context [walk ?o keys1 VNone] => destruct (walk o keys1 VNone); reflexivity
    end.
Qed.

Lemma names_only_no_string (o : value) (keys : list key) (v : value) :
  names_only keys = true ->
  subscript o keys = Ok v ->
  indexes_no_string o keys = true.
Proof.
  revert o. induction keys as [ | k keys IH]; intros o; [reflexivity | ].
  cbn [names_only forallb]. fold (names_only keys). intros H S.
  apply andb_true_iff in H as [Hk H]. destruct k; [ | discriminate].
  destruct o; simpl in S |- *; try discriminate.
  destruct (dict_lookup s d) as [x | ]; simpl in S |- *; [ | discriminate].
  apply IH; assumption.
Qed.

Lemma denomination_reached (output : value) (person name : string) :
  name <> "" ->
  subscript output (denomination_of person) = Ok (VStr name) ->
  _get_nested_value output (denomination_of person) VNone = Return (VStr name)
  /\ truthy (VStr name) = true.
Proof.
  intros N S. split.
  - apply get_nested_value_reaches; [exact S | discriminate | ].
    eapply names_only_no_string; [reflexivity | exact S].
  - simpl. destruct (String.eqb_spec name ""); [contradiction | reflexivity].
Qed.

(** X17. [nom_societe] prefers the legal entity: a non-empty
    denomination under ["personneMorale"] is returned whatever the other
    records hold; when that lookup gives nothing, a non-empty
    denomination under ["exploitation"] is returned; when both give
    nothing, the lookup under ["personnePhysique"] is the result. *)
Theorem nom_societe_priority (output : value) (name : string) :
  name <> "" ->
  (subscript output (denomination_of "personneMorale") = Ok (VStr name) ->
   nom_societe output = Return (VStr name))
  /\ (forall v0,
        _get_nested_value output (denomination_of "personneMorale") VNone = Return v0 ->
        truthy v0 = false ->
        subscript output (denomination_of "exploitation") = Ok (VStr name) ->
        nom_societe output = Return (VStr name))
  /\ (forall v0 v1,
        _get_nested_value output (denomination_of "personneMorale") VNone = Return v0 ->
        truthy v0 = false ->
        _get_nested_value output (denomination_of "exploitation") VNone = Return v1 ->
        truthy v1 = false ->
        nom_societe output
        = _get_nested_value output (denomination_of "personnePhysique") VNone).
Proof.
  intros N. unfold nom_societe. split; [ | split].
  - intros S. destruct (denomination_reached output _ name N S) as [-> T].
    cbn [and_then]. rewrite T. reflexivity.
  - intros v0 E0 T0 S. rewrite E0. cbn [and_then]. rewrite T0.
    destruct (denomination_reached output _ name N S) as [-> T].
    cbn [and_then]. rewrite T. reflexivity.
  - intros v0 v1 E0 T0 E1 T1. rewrite E0. cbn [and_then]. rewrite T0, E1.
    cbn [and_then]. rewrite T1. reflexivity.
Qed.

Lemma nom_societe_priority_witness :
  nom_societe company = Return (VStr "ACME").
Proof.
  apply (proj1 (nom_societe_priority company "ACME" ltac:(discriminate))).
  reflexivity.
Defined.

Lemma eq_str_true (v : value) (t : string) :
  eq_str v t = true <-> v = VStr t.
Proof.
  destruct v; simpl; split; try discriminate.
  - intros H. apply String.eqb_eq in H. congruence.
  - intros H. injection H as ->. apply String.eqb_refl.
Qed.

Lemma get_person_type (o : value) (t : value) :
  get o "typeDePersonne" VNone = Ok t -> t = person_type o.
Proof.
  destruct o; simpl; try discriminate.
  destruct (dict_lookup "typeDePersonne" d); intros H; injection H as <-; reflexivity.
Qed.

(** The indices returned are those of the officers of the given type. *)
Lemma indices_of_type_spec (l : list value) (k : Z) (t : string) (r : list Z) :
  indices_of_type l k t = Ok r ->
  forall i,
    In i r
    <-> exists o, k <= i /\ nth_error l (Z.to_nat (i - k)) = Some o
                  /\ person_type o = VStr t.
Proof.
  revert k r. induction l as [ | x l IH]; intros k r; simpl.
  - intros H. injection H as <-. intros i. split; [intros [] | ].
    intros (o & _ & N & _). destruct (Z.to_nat (i - k)); discriminate.
  - destruct (get x "typeDePersonne" VNone) as [tv | ] eqn:G; simpl; [ | discriminate].
    apply get_person_type in G. subst tv.
    destruct (indices_of_type l (k + 1) t) as [tl | ] eqn:R; simpl; [ | discriminate].
    intros H. injection H as <-. intros i.
    specialize (IH (k + 1) tl R i).
    assert (Tail : In i tl
                   <-> exists o, k < i /\ nth_error l (Z.to_nat (i - k) - 1) = Some o
                                 /\ person_type o = VStr t).
    { rewrite IH. split; intros (o & K & N & P); exists o; (split; [lia | ]);
        (split; [ | exact P]);
        replace (Z.to_nat (i - k) - 1)%nat with (Z.to_nat (i - (k + 1))) in * by lia;
        exact N. }
    assert (Head : eq_str (person_type x) t = true <-> person_type x = VStr t)
      by apply eq_str_true.
    split.
    + intros Hi.
      assert (C : (i = k /\ person_type x = VStr t) \/ In i tl).
      { destruct (eq_str (person_type x) t); [ | auto].
        destruct Hi as [<- | Hi]; [left; split; [reflexivity | apply Head; reflexivity] | auto]. }
      destruct C as [[-> P] | C].
      * exists x. replace (k - k) with 0 by lia. simpl. auto with zarith.
      * apply Tail in C as (o & K & N & P). exists o. split; [lia | ].
        split; [ | exact P].
        destruct (Z.to_nat (i - k)) as [ | n] eqn:E; [lia | ].
        simpl in N |- *. rewrite Nat.sub_0_r in N. exact N.
    + intros (o & K & N & P).
      destruct (Z.eq_dec i k) as [-> | Ne].
      * replace (k - k) with 0 in N by lia. simpl in N. injection N as ->.
        apply Head in P. rewrite P. left. reflexivity.
      * assert (In i tl).
        { apply Tail. exists o. split; [lia | ]. split; [ | exact P].
          destruct (Z.to_nat (i - k)) as [ | n] eqn:E; [lia | ].
          simpl in N |- *. rewrite Nat.sub_0_r. exact N. }
        destruct (eq_str (person_type x) t); [right | ]; assumption.
Qed.

(** X18. With the officers in an array, [nombre_individus] returns
    exactly the positions of the officers whose type is "INDIVIDU" and
    [nombre_entreprises] exactly those whose type is "ENTREPRISE"; no
    position is in both lists. *)
Theorem nombre_individus_entreprises
    (output : value) (pouvoirs : list value) (individus entreprises : list Z) :
  dirigeants_box output = Return (VList pouvoirs) ->
  nombre_individus output = Return individus ->
  nombre_entreprises output = Return entreprises ->
  (forall i,
      In i individus
      <-> exists o, 0 <= i /\ nth_error pouvoirs (Z.to_nat i) = Some o
                    /\ person_type o = VStr "INDIVIDU")
  /\ (forall i,
        In i entreprises
        <-> exists o, 0 <= i /\ nth_error pouvoirs (Z.to_nat i) = Some o
                      /\ person_type o = VStr "ENTREPRISE")
  /\ (forall i, In i individus -> ~ In i entreprises).
Proof.
  intros B. unfold nombre_individus, nombre_entreprises. rewrite B.
  cbn [and_then iter bind of_res].
  destruct (indices_of_type pouvoirs 0 "INDIVIDU") as [li | ] eqn:I;
    cbn [of_res]; [ | discriminate].
  destruct (indices_of_type pouvoirs 0 "ENTREPRISE") as [le | ] eqn:E;
    cbn [of_res]; [ | discriminate].
  intros H1 H2. injection H1 as <-. injection H2 as <-.
  pose proof (indices_of_type_spec _ _ _ _ I) as SI.
  pose proof (indices_of_type_spec _ _ _ _ E) as SE.
  assert (A : forall i t r,
             (forall i, In i r <-> exists o, 0 <= i
                          /\ nth_error pouvoirs (Z.to_nat (i - 0)) = Some o
                          /\ person_type o = VStr t) ->
             (In i r <-> exists o, 0 <= i
                          /\ nth_error pouvoirs (Z.to_nat i) = Some o
                          /\ person_type o = VStr t)).
  { intros i t r S. rewrite (S i). rewrite Z.sub_0_r. reflexivity. }
  split; [intros i; apply A, SI | ]. split; [intros i; apply A, SE | ].
  intros i Hi He.
  apply (A i _ _ SI) in Hi as (o & _ & N & P).
  apply (A i _ _ SE) in He as (o' & _ & N' & P').
  rewrite N in N'. injection N' as <-. rewrite P in P'. discriminate.
Qed.

Lemma nombre_individus_entreprises_witness :
  nombre_individus company = Return [0]
  /\ nombre_entreprises company = Return [1]
  /\ (forall i, In i [0] -> ~ In i [1]).
Proof.
  split; [reflexivity | ]. split; [reflexivity | ].
  refine (proj2 (proj2 (nombre_individus_entreprises company _ [0] [1] _ _ _)));
    reflexivity.
Defined.

End NestedValue.

(* ===================================================================== *)
(** ** The accessors of the financial statements client                  *)
(* ===================================================================== *)

Section Accessors.
Import Py PyMore FinancialDataExtractor Shape Metric InpiCompaniesClient
       ComptesAnnuelsClient MoreFixtures Paths.

(** X19. With the statements in an array (or no ["bilansSaisis"] member
    at all), a position at or past the end gives [None] in every
    accessor, and a negative position before the start raises
    [IndexError]: the accessors test only [position < len]. *)
Theorem accessors_out_of_range
    (documents : value) (statements : list value) (position : Z) (name : string) :
  get documents "bilansSaisis" (VList []) = Ok (VList statements) ->
  (Z.of_nat (List.length statements) <= position ->
   bilans_saisis_detail documents (Some position) = Ok VNone
   /\ statement_member name documents position = Ok VNone
   /\ identite_member name documents position = Ok VNone
   /\ type_bilan_saisi documents (Some position) = Ok VNone)
  /\ (position < - Z.of_nat (List.length statements) ->
      bilans_saisis_detail documents (Some position) = Raise IndexError
      /\ statement_member name documents position = Raise IndexError
      /\ identite_member name documents position = Raise IndexError
      /\ type_bilan_saisi documents (Some position) = Raise IndexError).
Proof.
  intros G.
  unfold bilans_saisis_detail, statement_member, identite_member, type_bilan_saisi.
  rewrite G. cbn [bind len]. split; intros H.
  - assert (E : (position <? Z.of_nat (List.length statements)) = false)
      by (apply Z.ltb_ge; lia).
    rewrite E. auto.
  - assert (E : (position <? Z.of_nat (List.length statements)) = true)
      by (apply Z.ltb_lt; lia).
    rewrite E. cbn [getitem_int]. rewrite (seq_index_below _ _ H). auto.
Qed.

Lemma accessors_out_of_range_witness :
  date_cloture attachments 2 = Ok VNone
  /\ date_cloture attachments (-3) = Raise IndexError
  /\ bilans_saisis_detail (VDict []) (Some (-1)) = Raise IndexError.
Proof.
  split; [ | split].
  - apply (proj1 (accessors_out_of_range attachments _ 2 "dateCloture" eq_refl)).
    simpl. lia.
  - apply (proj2 (accessors_out_of_range attachments _ (-3) "dateCloture" eq_refl)).
    simpl. lia.
  - apply (proj2 (accessors_out_of_range (VDict []) [] (-1) "" eq_refl)).
    simpl. lia.
Defined.

Lemma get_metric_same_pages metric bilan_data bilan_data' position position'
    bilan_type n_minus_1 :
  navigate bilan_data position = navigate bilan_data' position' ->
  get_metric metric bilan_data position bilan_type n_minus_1
  = get_metric metric bilan_data' position' bilan_type n_minus_1.
Proof.
  intros H. destruct metric; simpl;
    [ unfold get_capitaux_propres | unfold get_benefice_perte
    | unfold get_resultat_exercice_tbb | unfold get_chiffre_affaires
    | unfold get_effectif ];
    rewrite H; reflexivity.
Qed.

Lemma seq_index_nil {A : Type} (i : Z) : seq_index (@nil A) i = None.
Proof.
  unfold seq_index. cbv zeta. simpl List.length. simpl Z.of_nat.
  destruct (i <? 0);
    match goal with
    | |- context [?j <? 0] => destruct (Z.ltb_spec j 0); destruct (Z.leb_spec 0 j)
    end; simpl; try reflexivity; lia.
Qed.

Lemma get_present (o : value) (k : string) (dflt v : value) :
  get o k dflt = Ok v ->
  getitem_str o k = Ok v \/ (v = dflt /\ getitem_str o k = Raise KeyError).
Proof.
  destruct o; simpl; try discriminate.
  destruct (dict_lookup k d); intros H; injection H as <-; auto.
Qed.

(** X20. The statement that [bilans_saisis_detail] returns for a
    position is the one the other accessors and the extractor read at
    that position: the member accessors return its members, and every
    getter returns what it returns for that statement alone. *)
Theorem accessors_read_same_statement
    (documents : value) (position : Z) (s : value) :
  bilans_saisis_detail documents (Some position) = Ok s ->
  s <> VNone ->
  (forall name, statement_member name documents position = get s name VNone)
  /\ type_bilan_saisi documents (Some position) = get s "typeBilan" VNone
  /\ (forall metric bilan_type n_minus_1,
        get_metric metric documents position bilan_type n_minus_1
        = get_metric metric (document [s]) 0 bilan_type n_minus_1).
Proof.
  unfold bilans_saisis_detail, statement_member, type_bilan_saisi.
  destruct (get documents "bilansSaisis" (VList [])) as [bilans | ] eqn:G;
    cbn [bind]; [ | discriminate].
  destruct (len bilans) as [n | ] eqn:L; cbn [bind]; [ | discriminate].
  destruct (position <? n) eqn:P; [ | intros H; injection H as <-; congruence].
  intros I N. rewrite I. cbn [bind]. split; [reflexivity | ]. split; [reflexivity | ].
  intros metric bilan_type n_minus_1. apply get_metric_same_pages.
  unfold navigate, document.
  destruct (get_present _ _ _ _ G) as [E | [E1 E2]].
  - rewrite E. cbn [bind]. rewrite I. reflexivity.
  - subst bilans. simpl in I. rewrite seq_index_nil in I. discriminate.
Qed.

Lemma accessors_read_same_statement_witness :
  date_cloture attachments 1 = Ok (VStr "2022-12-31")
  /\ type_bilan_saisi attachments (Some 1) = Ok (VStr "S").
Proof.
  destruct (accessors_read_same_statement attachments 1
              (VDict [("id", VStr "b0"); ("dateCloture", VStr "2022-12-31");
                      ("typeBilan", VStr "S")])
              eq_refl ltac:(discriminate)) as (M & T & _).
  split; [exact (M "dateCloture") | exact T].
Defined.

Lemma iter_len (o : value) (items : list value) :
  iter o = Ok items -> len o = Ok (Z.of_nat (List.length items)).
Proof.
  destruct o; simpl; try discriminate; intros H; injection H as <-.
  - unfold chars. rewrite length_map, length_list_ascii. reflexivity.
  - reflexivity.
  - rewrite length_map. reflexivity.
Qed.

Lemma cloture_id_from_spec (l : list value) (k : Z) (r : list (Z * value * value)) :
  cloture_id_from l k = Ok r ->
  List.length r = List.length l
  /\ (forall j i date id,
        nth_error r j = Some (i, date, id) ->
        i = k + Z.of_nat j
        /\ exists b, nth_error l j = Some b
                     /\ get b "dateCloture" VNone = Ok date
                     /\ get b "id" VNone = Ok id).
Proof.
  revert k r. induction l as [ | b l IH]; intros k r; simpl.
  - intros H. injection H as <-. split; [reflexivity | ].
    intros [ | j]; discriminate.
  - destruct (get b "dateCloture" VNone) as [date0 | ] eqn:D; simpl; [ | discriminate].
    destruct (get b "id" VNone) as [id0 | ] eqn:I; simpl; [ | discriminate].
    destruct (cloture_id_from l (k + 1)) as [tl | ] eqn:R; simpl; [ | discriminate].
    intros H. injection H as <-.
    destruct (IH _ _ R) as [Len Nth]. split; [simpl; congruence | ].
    intros [ | j] i date id; simpl; intros H.
    + injection H as <- <- <-. split; [lia | ]. exists b. auto.
    + destruct (Nth j i date id H) as [-> X]. split; [lia | exact X].
Qed.

(** X21. [bilans_saisis_cloture_id] lists one entry per statement,
    numbered from 0 in order, and the date and identifier of entry [i]
    are what [date_cloture] and [id_bilan_saisi] return for position
    [i]. *)
Theorem bilans_saisis_cloture_id_entries
    (documents : value) (r : list (Z * value * value)) :
  bilans_saisis_cloture_id documents = Ok r ->
  bilans_saisis_len documents = Ok (Z.of_nat (List.length r))
  /\ (forall j i date id,
        nth_error r j = Some (i, date, id) ->
        i = Z.of_nat j
        /\ date_cloture documents i = Ok date
        /\ id_bilan_saisi documents i = Ok id).
Proof.
  unfold bilans_saisis_cloture_id, bilans_saisis_len, date_cloture, id_bilan_saisi,
    statement_member.
  destruct (get documents "bilansSaisis" (VList [])) as [bilans | ] eqn:G;
    cbn [bind]; [ | discriminate].
  destruct (iter bilans) as [items | ] eqn:It; cbn [bind]; [ | discriminate].
  intros C. destruct (cloture_id_from_spec _ _ _ C) as [Len Nth].
  rewrite (iter_len _ _ It), Len. split; [reflexivity | ].
  intros j i date id H. destruct (Nth j i date id H) as [-> (b & Nb & D & I)].
  split; [lia | ]. cbn [bind].
  assert (J : (j < List.length items)%nat) by (apply nth_error_Some; congruence).
  assert (P : (0 + Z.of_nat j <? Z.of_nat (List.length items)) = true)
    by (apply Z.ltb_lt; lia).
  rewrite P.
  assert (B : getitem_int bilans (0 + Z.of_nat j) = Ok b).
  { destruct bilans; simpl in It; try discriminate; injection It as <-.
    - apply nth_error_In in Nb. unfold chars in Nb.
      apply in_map_iff in Nb as (c & <- & _). discriminate D.
    - cbn [getitem_int]. rewrite seq_index_nth_error by lia.
      rewrite Z.add_0_l, Nat2Z.id, Nb. reflexivity.
    - apply nth_error_In in Nb.
      apply in_map_iff in Nb as (c & <- & _). discriminate D. }
  rewrite B. cbn [bind]. auto.
Qed.

Lemma bilans_saisis_cloture_id_entries_witness :
  bilans_saisis_len attachments = Ok 2
  /\ date_cloture attachments 1 = Ok (VStr "2022-12-31").
Proof.
  destruct (bilans_saisis_cloture_id_entries attachments
              [(0, VStr "2023-12-31", VStr "b1"); (1, VStr "2022-12-31", VStr "b0")]
              eq_refl) as [L N].
  split; [exact L | ].
  exact (proj1 (proj2 (N 1%nat 1 (VStr "2022-12-31") (VStr "b0") eq_refl))).
Defined.

(** X22. Whenever an accessor of [bilanSaisi.bilan.identite] returns, it
    returns what the nested lookup of the company client finds from the
    statement along ["bilanSaisi"], ["bilan"], ["identite"] and the
    member name, with [None] for a member that is missing. *)
Theorem identite_member_nested
    (documents : value) (position : Z) (name : string) (s v : value) :
  bilans_saisis_detail documents (Some position) = Ok s ->
  s <> VNone ->
  identite_member name documents position = Ok v ->
  v = walk s [KStr "bilanSaisi"; KStr "bilan"; KStr "identite"; KStr name] VNone.
Proof.
  unfold bilans_saisis_detail, identite_member.
  destruct (get documents "bilansSaisis" (VList [])) as [bilans | ] eqn:G;
    cbn [bind]; [ | discriminate].
  destruct (len bilans) as [n | ] eqn:L; cbn [bind]; [ | discriminate].
  destruct (position <? n) eqn:P; [ | intros H; injection H as <-; congruence].
  intros I N. rewrite I. cbn [bind]. clear.
  destruct s as [ | | | | | | d0]; try discriminate. simpl.
  destruct (dict_lookup "bilanSaisi" d0) as [[ | | | | | | d1] | ]; simpl;
    try discriminate.
  - destruct (dict_lookup "bilan" d1) as [[ | | | | | | d2] | ]; simpl;
      try discriminate.
    + destruct (dict_lookup "identite" d2) as [[ | | | | | | d3] | ]; simpl;
        try discriminate.
      * destruct (dict_lookup name d3) as [x | ]; intros H; injection H as <-;
          [destruct x | ]; reflexivity.
      * intros H; injection H as <-. reflexivity.
    + intros H; injection H as <-. reflexivity.
  - intros H; injection H as <-. reflexivity.
Qed.

Lemma identite_member_nested_witness :
  code_devise attachments_identite 0 = Ok (VStr "EUR")
  /\ VStr "EUR"
     = walk statement_identite
         [KStr "bilanSaisi"; KStr "bilan"; KStr "identite"; KStr "codeDevise"] VNone.
Proof.
  split; [reflexivity | ].
  apply (identite_member_nested attachments_identite 0 "codeDevise"
           statement_identite (VStr "EUR")).
  - reflexivity.
  - discriminate.
  - reflexivity.
Defined.

End Accessors.

(* ===================================================================== *)
(** ** Position -1                                                       *)
(* ===================================================================== *)

Section LastStatement.
Import Py PyMore FinancialDataExtractor Shape Metric Fixtures More.




End LastStatement.
